(** * sqlite3-spatialite-example: the two example runners and the command line

    A shallow embedding of [main.cpp].  The program is a linear sequence of
    calls into SQLite and SpatiaLite with a status check after each one, so
    the embedding is a small monad threading the engine's state, logging
    every call with the engine's reply and everything handed to the two
    output streams, and carrying the three ways a C++ function body can end:
    a normal return, an exception, and [std::exit]. *)

From Stdlib Require Import ZArith String Ascii List Lia.
From stdpp Require Import base option list strings gmap.
Import ListNotations.

Local Open Scope string_scope.
Local Open Scope list_scope.
Local Open Scope stdpp_scope.

(** ** Constants of [sqlite3.h] *)

Definition SQLITE_OK : Z := 0.
Definition SQLITE_ROW : Z := 100.
Definition SQLITE_DONE : Z := 101.
Definition SQLITE_OPEN_READWRITE : Z := 2.
Definition SQLITE_OPEN_CREATE : Z := 4.

(** ** The engine interface

    Every function of SQLite and SpatiaLite the program calls.  Handles
    ([sqlite3*], [sqlite3_stmt*], the cache [void*]) are pointers, kept as
    integers. *)

Inductive call : Type :=
| sqlite3_libversion
| spatialite_version
| sqlite3_open_v2 (filename : string) (flags : Z)
| sqlite3_close (db : Z)
| sqlite3_errmsg (db : Z)
| sqlite3_exec (db : Z) (sql : string)
| sqlite3_free (err_msg : string)
| sqlite3_prepare_v2 (db : Z) (sql : string)
| sqlite3_step (stmt : Z)
| sqlite3_column_text (stmt : Z) (iCol : Z)
| sqlite3_finalize (stmt : Z)
| spatialite_alloc_connection
| spatialite_init_ex (db : Z) (cache : Z) (verbose : Z)
| spatialite_cleanup_ex (cache : Z)
| spatialite_shutdown.

(** What a call hands back: its status code, the pointer it returns or
    stores through an out-parameter, and the text it returns or stores
    (an error message, a column value, a version string).

    [sqlite3_column_text] returns a pointer to the text of the column, and
    a null pointer when the column holds the SQL NULL: for that call [ptr]
    is the pointer returned and [txt] the text it points to when it is not
    null.  The other texts the program prints ([sqlite3_errmsg], the
    version strings, the message [sqlite3_exec] stores with a non-OK status)
    are taken to be there. *)
Record reply : Type := Reply { rc : Z; ptr : Z; txt : string }.

(** The database engine with the spatial extension loaded is an opaque
    collaborator: some state, and an answer to every call. *)
Class Engine : Type := {
  engine_state : Type;
  respond : call -> engine_state -> reply * engine_state
}.

(** ** Observable behaviour *)

(** The log holds what the program does to the outside, in order: the calls
    to the engine with their replies, what it inserts into [std::cout] and
    into [std::cerr], and the calls to [setenv].  [Stdout s] is the
    insertion of the text [s]; [Stdout_null] is the insertion of a null
    [const unsigned char*], which writes nothing and sets [badbit] on
    [std::cout]. *)
Inductive event : Type :=
| Call (c : call) (r : reply)
| Stdout (s : string)
| Stdout_null
| Stderr (s : string)
| Setenv (name value : string) (overwrite : Z).

Inductive outcome (A : Type) : Type :=
| Normal (a : A)
| Thrown (what : string)
| Exited (status : Z).
Arguments Normal {A} a.
Arguments Thrown {A} what.
Arguments Exited {A} status.

(** How the process ends when [main] ends with the given outcome: an
    exception no handler catches reaches [std::terminate], which aborts, so
    there is no exit code. *)
Definition exit_code (o : outcome Z) : option Z :=
  match o with
  | Normal v => Some v
  | Exited v => Some v
  | Thrown _ => None
  end.

Definition endl : string := String (ascii_of_nat 10) EmptyString.

(** ** Command line, as [getopt_long] reports it

    [getopt_long] belongs to the C library.  Its successive return values
    other than -1, each with the [optarg] it sets, and the operands it
    leaves at [argv[optind..]] are the input of [main]. *)
Record optret : Type := OptRet { opt_c : ascii; optarg : string }.
Record cmdline : Type := CmdLine { opts : list optret; operands : list string }.

(** [atoi] of the C library, which glibc defines as
    [(int) strtol(nptr, NULL, 10)]: leading white space, an optional sign,
    then the longest run of decimal digits; a value outside the range of
    [long] (64 bits) is replaced by [LONG_MAX] or [LONG_MIN], and the
    conversion to [int] (32 bits) keeps the low bits. *)
Definition LONG_MAX : Z := 9223372036854775807.
Definition LONG_MIN : Z := -9223372036854775808.

Definition isspace (a : ascii) : bool :=
  let n := nat_of_ascii a in
  Nat.eqb n 32 || (Nat.leb 9 n && Nat.leb n 13).

Definition digit_of (a : ascii) : option Z :=
  let n := Z.of_nat (nat_of_ascii a) in
  if ((48 <=? n) && (n <=? 57))%Z then Some (n - 48)%Z else None.

Fixpoint skip_space (s : string) : string :=
  match s with
  | String a s' => if isspace a then skip_space s' else s
  | EmptyString => s
  end.

Fixpoint digits (acc : Z) (s : string) : Z :=
  match s with
  | String a s' =>
      match digit_of a with
      | Some d => digits (10 * acc + d)%Z s'
      | None => acc
      end
  | EmptyString => acc
  end.

(** [strtol(nptr, NULL, 10)]. *)
Definition strtol (s : string) : Z :=
  let v :=
    match skip_space s with
    | String "-" s' => (- digits 0 s')%Z
    | String "+" s' => digits 0 s'
    | s' => digits 0 s'
    end in
  Z.max LONG_MIN (Z.min LONG_MAX v).

(** Conversion of a [long] to [int]. *)
Definition to_int (v : Z) : Z :=
  ((v + 2147483648) mod 4294967296 - 2147483648)%Z.

Definition atoi (s : string) : Z := to_int (strtol s).

(** Conversion of an [int] to [uint8_t]. *)
Definition to_uint8 (v : Z) : Z := (v mod 256)%Z.

(** [operator<<] on a [uint8_t] writes it as one character. *)
Definition show_uint8 (v : Z) : string :=
  String (ascii_of_nat (Z.to_nat v)) EmptyString.

Section Program.
Context `{Engine}.

Record world : Type := World {
  eng : engine_state;
  environ : gmap string string
}.

Definition M (A : Type) : Type := world -> outcome A * world * list event.

#[global] Instance M_ret : MRet M := fun A a w => (Normal a, w, []).

#[global] Instance M_bind : MBind M := fun A B f m w =>
  match m w with
  | (Normal a, w1, t1) =>
      match f a w1 with
      | (o, w2, t2) => (o, w2, t1 ++ t2)
      end
  | (Thrown what, w1, t1) => (Thrown what, w1, t1)
  | (Exited status, w1, t1) => (Exited status, w1, t1)
  end.

Definition throw {A} (what : string) : M A := fun w => (Thrown what, w, []).
Definition exit {A} (status : Z) : M A := fun w => (Exited status, w, []).

Definition engine (c : call) : M reply := fun w =>
  match respond c (eng w) with
  | (r, s) => (Normal r, World s (environ w), [Call c r])
  end.

Definition cout (s : string) : M unit := fun w => (Normal tt, w, [Stdout s]).
Definition cerr (s : string) : M unit := fun w => (Normal tt, w, [Stderr s]).

(** [std::cout << p] for a null [p]. *)
Definition cout_null : M unit := fun w => (Normal tt, w, [Stdout_null]).

(** [setenv(name, value, overwrite)] of the C library. *)
Definition setenv (name value : string) (overwrite : Z) : M unit := fun w =>
  let env :=
    if (overwrite =? 0)%Z
    then match environ w !! name with
         | Some _ => environ w
         | None => <[name := value]> (environ w)
         end
    else <[name := value]> (environ w) in
  (Normal tt, World (eng w) env, [Setenv name value overwrite]).

(** Projections of a run. *)
Definition result {A} (m : M A) (w : world) : outcome A := (m w).1.1.
Definition final {A} (m : M A) (w : world) : world := (m w).1.2.
Definition events {A} (m : M A) (w : world) : list event := (m w).2.

(** A block of a function body that may execute [return v]: [Some v]
    means it did, [None] that control falls through to what follows. *)
Definition or_else (blk : M (option Z)) (rest : M Z) : M Z :=
  r ← blk;
  match r with
  | Some v => mret v
  | None => rest
  end.

(** ** [handle_error] *)
Definition handle_error (db_handle cache : Z) (err_msg : string) : M unit :=
  cerr ("Error: " +:+ err_msg +:+ endl);;
  engine (sqlite3_free err_msg);;
  engine (sqlite3_close db_handle);;
  engine (spatialite_cleanup_ex cache);;
  engine spatialite_shutdown;;
  mret tt.

(** ** [spatial_metadata_exists] *)
Definition check_sql : string :=
  "SELECT name FROM sqlite_master WHERE type='table' AND name='spatial_ref_sys'".

Definition spatial_metadata_exists (db_handle : Z) : M bool :=
  p ← engine (sqlite3_prepare_v2 db_handle check_sql);
  let stmt := ptr p in
  if negb (rc p =? SQLITE_OK)%Z then
    m ← engine (sqlite3_errmsg db_handle);
    cerr ("Error checking if spatial_ref_sys table exists: " +:+ txt m +:+ endl);;
    throw "Error checking if spatial_ref_sys table exists"
  else
    s ← engine (sqlite3_step stmt);
    let exists_ := (rc s =? SQLITE_ROW)%Z in
    engine (sqlite3_finalize stmt);;
    mret exists_.

(** ** The fixed data of the two examples *)
Definition places_1 : list (string * string) :=
  [ ("Rio de Janeiro", "POINT(-43.1729 -22.9068)");
    ("Foz do Iguacu", "POINT(-54.5854 -25.5165)");
    ("Fernando de Noronha", "POINT(-32.423786 -3.853808)") ].

Definition places_2 : list (string * string) :=
  [ ("Rio de Janeiro", "POINT(-43.1729 -22.9068)");
    ("Foz do Iguacu", "POINT(-54.5854 -25.5165)");
    ("Fernando de Noronha", "POINT(-32.423786 -3.853808)");
    ("Null Island", "POINT(0 0)");
    ("New York", "POINT(-74.0060 40.7128)") ].

Definition init_sql : string := "SELECT InitSpatialMetaData(1);".

Definition create_sql (table_name : string) : string :=
  "CREATE TABLE IF NOT EXISTS " +:+ table_name +:+
  " (id INTEGER PRIMARY KEY AUTOINCREMENT NOT NULL)".

Definition geometry_sql (table_name : string) : string :=
  "SELECT AddGeometryColumn('" +:+ table_name +:+ "', 'geom', 4326, 'POINT', 'XY')".

Definition begin_sql : string := "BEGIN TRANSACTION;".
Definition commit_sql : string := "COMMIT".

Definition insert_sql (table_name : string) (place : string * string) : string :=
  "INSERT INTO " +:+ table_name +:+ " (geom) VALUES (GeomFromText('" +:+
  place.2 +:+ "', 4326))".

Definition import_sql (shp_file_path table_name : string) : string :=
  "SELECT ImportSHP('" +:+ shp_file_path +:+ "', '" +:+ table_name +:+ "', 'UTF-8')".

Definition within_sql (table_name : string) (place : string * string) : string :=
  "SELECT NM_UF FROM " +:+ table_name +:+ " WHERE ST_Within(GeomFromText('" +:+
  place.2 +:+ "', 4326), geometry) =1".

(** ** [run_example_1] *)

(** The loop [for (const auto& place : places)] of Example 1. *)
Fixpoint insert_places (db_handle cache : Z) (table_name : string)
    (places : list (string * string)) : M (option Z) :=
  match places with
  | [] => mret None
  | place :: places' =>
      cout ("Adding " +:+ place.1 +:+ ": " +:+ place.2 +:+ endl);;
      e ← engine (sqlite3_exec db_handle (insert_sql table_name place));
      if negb (rc e =? SQLITE_OK)%Z then
        cerr ("Error adding " +:+ place.1 +:+ ": " +:+ txt e +:+ endl);;
        handle_error db_handle cache (txt e);;
        mret (Some 1%Z)
      else insert_places db_handle cache table_name places'
  end.

Definition run_example_1 (db_name : string) : M Z :=
  v ← engine sqlite3_libversion;
  cout ("SQLite version: " +:+ txt v +:+ endl);;
  v ← engine spatialite_version;
  cout ("Spatialite version: " +:+ txt v +:+ endl);;
  cout ("Opening database: " +:+ db_name +:+ endl);;
  o ← engine (sqlite3_open_v2 db_name
                (Z.lor SQLITE_OPEN_READWRITE SQLITE_OPEN_CREATE));
  let db_handle := ptr o in
  if negb (rc o =? SQLITE_OK)%Z then
    m ← engine (sqlite3_errmsg db_handle);
    cerr ("Error opening database: " +:+ txt m +:+ endl);;
    engine (sqlite3_close db_handle);;
    mret 1%Z
  else
  a ← engine spatialite_alloc_connection;
  let cache := ptr a in
  engine (spatialite_init_ex db_handle cache 0);;
  or_else (
    exists_ ← spatial_metadata_exists db_handle;
    if negb exists_ then
      cout ("Initializing Spatialite..." +:+ endl);;
      e ← engine (sqlite3_exec db_handle init_sql);
      if negb (rc e =? SQLITE_OK)%Z then
        cerr ("Error initializing Spatialite: " +:+ txt e +:+ endl);;
        handle_error db_handle cache (txt e);;
        mret (Some 1%Z)
      else mret None
    else mret None) (
  let table_name := "points" in
  cout ("Creating table: " +:+ table_name +:+ endl);;
  e ← engine (sqlite3_exec db_handle (create_sql table_name));
  if negb (rc e =? SQLITE_OK)%Z then
    cerr ("Error creating table: " +:+ txt e +:+ endl);;
    handle_error db_handle cache (txt e);;
    mret 1%Z
  else
  cout ("Adding geometry column to table: " +:+ table_name +:+ endl);;
  e ← engine (sqlite3_exec db_handle (geometry_sql table_name));
  if negb (rc e =? SQLITE_OK)%Z then
    cerr ("Error adding geometry column: " +:+ txt e +:+ endl);;
    handle_error db_handle cache (txt e);;
    mret 1%Z
  else
  cout ("Adding some tourist places in Brazil..." +:+ endl);;
  e ← engine (sqlite3_exec db_handle begin_sql);
  if negb (rc e =? SQLITE_OK)%Z then
    cerr ("Error starting transaction: " +:+ txt e +:+ endl);;
    handle_error db_handle cache (txt e);;
    mret 1%Z
  else
  or_else (insert_places db_handle cache table_name places_1) (
  cout ("Committing transaction..." +:+ endl);;
  e ← engine (sqlite3_exec db_handle commit_sql);
  if negb (rc e =? SQLITE_OK)%Z then
    cerr ("Error committing transaction: " +:+ txt e +:+ endl);;
    handle_error db_handle cache (txt e);;
    mret 1%Z
  else
  c ← engine (sqlite3_close db_handle);
  (if negb (rc c =? SQLITE_OK)%Z then
     m ← engine (sqlite3_errmsg db_handle);
     cerr ("Error closing database: " +:+ txt m +:+ endl)
   else mret tt);;
  engine (spatialite_cleanup_ex cache);;
  engine spatialite_shutdown;;
  cout ("Example 1 Done." +:+ endl);;
  mret 0%Z)).

(** ** [run_example_2] *)

(** The loop [for (const auto& place : places)] of Example 2. *)
Fixpoint query_places (db_handle cache : Z) (table_name : string)
    (places : list (string * string)) : M (option Z) :=
  match places with
  | [] => mret None
  | place :: places' =>
      p ← engine (sqlite3_prepare_v2 db_handle (within_sql table_name place));
      let stmt := ptr p in
      if negb (rc p =? SQLITE_OK)%Z then
        m ← engine (sqlite3_errmsg db_handle);
        cerr ("Error preparing statement: " +:+ txt m +:+ endl);;
        engine (sqlite3_close db_handle);;
        engine (spatialite_cleanup_ex cache);;
        engine spatialite_shutdown;;
        mret (Some 1%Z)
      else
        s ← engine (sqlite3_step stmt);
        (if (rc s =? SQLITE_ROW)%Z then
           t ← engine (sqlite3_column_text stmt 0);
           if (ptr t =? 0)%Z then
             cout (place.1 +:+ " ---> ");;
             cout_null;;
             cout endl
           else
             cout (place.1 +:+ " ---> " +:+ txt t +:+ endl)
         else
           cout (place.1 +:+ " ---> " +:+ "Not found" +:+ endl));;
        engine (sqlite3_finalize stmt);;
        query_places db_handle cache table_name places'
  end.

Definition run_example_2 (db_name : string) : M Z :=
  let table_name := "location" in
  let shp_file_path := "../shp/BR_UF_2022" in
  setenv "SPATIALITE_SECURITY" "relaxed" 1;;
  cout ("Opening database: " +:+ db_name +:+ endl);;
  o ← engine (sqlite3_open_v2 db_name
                (Z.lor SQLITE_OPEN_READWRITE SQLITE_OPEN_CREATE));
  let db_handle := ptr o in
  if negb (rc o =? SQLITE_OK)%Z then
    m ← engine (sqlite3_errmsg db_handle);
    cerr ("Error opening database: " +:+ txt m +:+ endl);;
    engine (sqlite3_close db_handle);;
    mret 1%Z
  else
  a ← engine spatialite_alloc_connection;
  let cache := ptr a in
  engine (spatialite_init_ex db_handle cache 0);;
  or_else (
    exists_ ← spatial_metadata_exists db_handle;
    if negb exists_ then
      cout ("Initializing Spatialite..." +:+ endl);;
      e ← engine (sqlite3_exec db_handle init_sql);
      if negb (rc e =? SQLITE_OK)%Z then
        cerr ("Error initializing Spatialite: " +:+ txt e +:+ endl);;
        handle_error db_handle cache (txt e);;
        mret (Some 1%Z)
      else mret None
    else mret None) (
  cout ("Importing shapefile: " +:+ shp_file_path +:+ endl);;
  let sql_cmd := import_sql shp_file_path table_name in
  cout (sql_cmd +:+ endl);;
  e ← engine (sqlite3_exec db_handle sql_cmd);
  if negb (rc e =? SQLITE_OK)%Z then
    cerr ("Error importing shapefile: " +:+ txt e +:+ endl);;
    handle_error db_handle cache (txt e);;
    mret 1%Z
  else
  cout ("Checking what are the correspoding State names for the following points:"
        +:+ endl);;
  or_else (query_places db_handle cache table_name places_2) (
  c ← engine (sqlite3_close db_handle);
  (if negb (rc c =? SQLITE_OK)%Z then
     m ← engine (sqlite3_errmsg db_handle);
     cerr ("Error closing database: " +:+ txt m +:+ endl)
   else mret tt);;
  engine (spatialite_cleanup_ex cache);;
  engine spatialite_shutdown;;
  cout ("Example 2 Done." +:+ endl);;
  mret 0%Z)).

(** ** [show_usage] *)
Definition show_usage : M unit :=
  cout ("Usage: sqlite3_spatialite_app [options]" +:+ endl);;
  cout ("Options:" +:+ endl);;
  cout ("  -h, --help              Show this help message" +:+ endl);;
  cout ("  -i, --example-id <id>   ID of the example to run" +:+ endl);;
  cout ("  -n, --db-name <name>    Name of the database file (if not provided, in-memory)"
        +:+ endl).

(** ** [main] *)

(** The variables of [main] that the lambda [parse_args] captures by
    reference. *)
Record locals : Type := Locals {
  in_memory_db : bool;
  db_name : string;
  example_id : Z
}.

(** The [while ((c = getopt_long(...)) != -1)] loop with its [switch]. *)
Fixpoint parse_opts (rets : list optret) (v : locals) : M locals :=
  match rets with
  | [] => mret v
  | r :: rets' =>
      let c := opt_c r in
      if Ascii.eqb c "i" then
        parse_opts rets'
          (Locals (in_memory_db v) (db_name v) (to_uint8 (atoi (optarg r))))
      else if Ascii.eqb c "n" then
        parse_opts rets' (Locals false (optarg r) (example_id v))
      else if Ascii.eqb c "h" || Ascii.eqb c "?" then
        show_usage;;
        exit 0
      else
        parse_opts rets' v
  end.

Definition parse_args (cl : cmdline) (v : locals) : M locals :=
  cout ("parsing arguments..." +:+ endl);;
  v ← parse_opts (opts cl) v;
  match operands cl with
  | arg :: _ =>
      cerr ("Unexpected argument: " +:+ arg +:+ endl);;
      exit 1
  | [] => mret v
  end.

Definition main (cl : cmdline) : M Z :=
  v ← parse_args cl (Locals true "" 0);
  v ← (if in_memory_db v then
         cout ("Using in-memory database" +:+ endl);;
         mret (Locals (in_memory_db v) ":memory:" (example_id v))
       else mret v);
  if (example_id v =? 1)%Z then
    cout ("Running example 1..." +:+ endl);;
    run_example_1 (db_name v)
  else if (example_id v =? 2)%Z then
    cout ("Running example 2..." +:+ endl);;
    run_example_2 (db_name v)
  else
    cerr ("Unknown example ID: " +:+ show_uint8 (example_id v) +:+ endl);;
    mret 1%Z.

End Program.

Arguments world : clear implicits.
Arguments M : clear implicits.

(** ** Reading a log of events *)

Fixpoint pick {A} (f : event -> option A) (t : list event) : list A :=
  match t with
  | [] => []
  | e :: t' =>
      match f e with
      | Some a => a :: pick f t'
      | None => pick f t'
      end
  end.

Definition call_of (e : event) : option (call * reply) :=
  match e with Call c r => Some (c, r) | _ => None end.

Definition stdout_of (e : event) : option string :=
  match e with Stdout s => Some s | _ => None end.

Definition stderr_of (e : event) : option string :=
  match e with Stderr s => Some s | _ => None end.

Definition setenv_of (e : event) : option (string * string * Z) :=
  match e with Setenv n v o => Some (n, v, o) | _ => None end.

Definition exec_of (e : event) : option (string * reply) :=
  match e with
  | Call (sqlite3_exec _ sql) r => Some (sql, r)
  | _ => None
  end.

Definition prepare_of (e : event) : option (string * reply) :=
  match e with
  | Call (sqlite3_prepare_v2 _ sql) r => Some (sql, r)
  | _ => None
  end.

Definition step_of (e : event) : option reply :=
  match e with
  | Call (sqlite3_step _) r => Some r
  | _ => None
  end.

(** The replies to [sqlite3_column_text]. *)
Definition column_of (e : event) : option reply :=
  match e with
  | Call (sqlite3_column_text _ _) r => Some r
  | _ => None
  end.

Definition calls : list event -> list (call * reply) := pick call_of.
Definition columns : list event -> list reply := pick column_of.

(** The texts inserted into [std::cout] and into [std::cerr]. *)
Definition stdout : list event -> list string := pick stdout_of.
Definition stderr : list event -> list string := pick stderr_of.
Definition setenvs : list event -> list (string * string * Z) := pick setenv_of.

(** The SQL statements run through [sqlite3_exec], with their replies. *)
Definition execs : list event -> list (string * reply) := pick exec_of.

(** The statements compiled with [sqlite3_prepare_v2], with their replies. *)
Definition prepares : list event -> list (string * reply) := pick prepare_of.

(** The replies to [sqlite3_step]. *)
Definition steps : list event -> list reply := pick step_of.

(** The statements handed to [sqlite3_step], each with the reply. *)
Definition stepped_of (e : event) : option (Z * reply) :=
  match e with
  | Call (sqlite3_step stmt) r => Some (stmt, r)
  | _ => None
  end.

Definition stepped : list event -> list (Z * reply) := pick stepped_of.

(** What is done with a compiled statement. *)
Inductive use : Type :=
| Step (stmt : Z) (r : reply)
| Column (stmt : Z) (iCol : Z)
| Finalize (stmt : Z).

Definition use_of (e : event) : option use :=
  match e with
  | Call (sqlite3_step stmt) r => Some (Step stmt r)
  | Call (sqlite3_column_text stmt iCol) _ => Some (Column stmt iCol)
  | Call (sqlite3_finalize stmt) _ => Some (Finalize stmt)
  | _ => None
  end.

Definition uses : list event -> list use := pick use_of.

(** What reaches standard output.  [std::cout] is good when the process
    starts and the program never clears its state: the texts inserted are
    written until a null pointer is inserted, and nothing is written after
    that. *)
Fixpoint written (t : list event) : list string :=
  match t with
  | [] => []
  | Stdout s :: t' => s :: written t'
  | Stdout_null :: _ => []
  | _ :: t' => written t'
  end.

(** The calls that acquire or release the connection and its cache. *)
Inductive lifecycle_call : Type :=
| Open (db : Z)
| Alloc (cache : Z)
| Attach (db cache : Z)
| Close (db : Z)
| Cleanup (cache : Z)
| Shutdown.

Definition lifecycle_of (e : event) : option lifecycle_call :=
  match e with
  | Call (sqlite3_open_v2 _ _) r => Some (Open (ptr r))
  | Call spatialite_alloc_connection r => Some (Alloc (ptr r))
  | Call (spatialite_init_ex db cache _) _ => Some (Attach db cache)
  | Call (sqlite3_close db) _ => Some (Close db)
  | Call (spatialite_cleanup_ex cache) _ => Some (Cleanup cache)
  | Call spatialite_shutdown _ => Some Shutdown
  | _ => None
  end.

Definition lifecycle : list event -> list lifecycle_call := pick lifecycle_of.

(** The replies to [sqlite3_open_v2] and to [sqlite3_close], and the
    statements handed to [sqlite3_finalize]. *)
Definition open_of (e : event) : option reply :=
  match e with
  | Call (sqlite3_open_v2 _ _) r => Some r
  | _ => None
  end.

Definition close_of (e : event) : option reply :=
  match e with
  | Call (sqlite3_close _) r => Some r
  | _ => None
  end.

Definition finalize_of (e : event) : option Z :=
  match e with
  | Call (sqlite3_finalize stmt) _ => Some stmt
  | _ => None
  end.

Definition opens : list event -> list reply := pick open_of.
Definition closes : list event -> list reply := pick close_of.
Definition finalized : list event -> list Z := pick finalize_of.

(** Whether a reply carries [SQLITE_OK], and whether it carries
    [SQLITE_ROW]. *)
Definition accepted (r : reply) : bool := (rc r =? SQLITE_OK)%Z.
Definition has_row (r : reply) : bool := (rc r =? SQLITE_ROW)%Z.

(** The messages handed to [sqlite3_free]. *)
Definition free_of (e : event) : option string :=
  match e with
  | Call (sqlite3_free msg) _ => Some msg
  | _ => None
  end.

Definition freed : list event -> list string := pick free_of.

(** The line Example 2 writes for a point, given the text it found. *)
Definition report (place : string * string) (answer : string) : string :=
  place.1 +:+ " ---> " +:+ answer +:+ endl.

(** What the engine answers to a containment query, as the loop of
    Example 2 sees it: a row with the name of the region, a row whose name
    is the SQL NULL, or no row. *)
Inductive answer : Type :=
| Region (name : string)
| Unnamed
| Nowhere.

(** The answers a log holds, from the replies to the steps of the queries
    and the replies to [sqlite3_column_text], which is called for the steps
    that returned a row. *)
Fixpoint answers (ss cs : list reply) : list answer :=
  match ss with
  | [] => []
  | s :: ss' =>
      if has_row s then
        match cs with
        | c :: cs' =>
            (if (ptr c =? 0)%Z then Unnamed else Region (txt c)) :: answers ss' cs'
        | [] => []
        end
      else Nowhere :: answers ss' cs
  end.

(** What reaches standard output for the points, given the answers, and
    [closing] after them: a line per point, until a region has no name;
    the line of that point stops after the arrow and nothing follows it. *)
Fixpoint reported (places : list (string * string)) (found : list answer)
    (closing : list string) : list string :=
  match places, found with
  | place :: places', Region name :: found' =>
      report place name :: reported places' found' closing
  | place :: places', Nowhere :: found' =>
      report place "Not found" :: reported places' found' closing
  | place :: _, Unnamed :: _ => [place.1 +:+ " ---> "]
  | _, _ => closing
  end.

(** What a compiled containment query goes through: it is stepped, its
    first column is read when the step returned a row, it is finalized. *)
Definition query_uses (q : Z * reply) : list use :=
  Step q.1 q.2 :: (if has_row q.2 then [Column q.1 0] else []) ++ [Finalize q.1].

(** ** A concrete engine

    A small stand-in for SQLite with SpatiaLite, enough to run the program:
    it remembers whether the metadata tables exist, which statement was
    compiled last, the rows of table [points] (the geometry each one
    holds, the only column the program writes) and the rows inserted by
    the transaction in progress; it answers a containment query from a
    layer that gives the region of a point, and fails exactly the calls
    picked by [broken]. *)
Record toy_state : Type := Toy {
  has_metadata : bool;
  prepared : string;
  points : list string;
  pending : option (list string)
}.

Definition toy_error : reply := Reply 1 0 "SQL logic error".
Definition toy_ok : reply := Reply SQLITE_OK 0 "".

(** The geometry an INSERT of Example 1 stores. *)
Definition insert_head : string := "INSERT INTO points (geom) VALUES (GeomFromText('".
Definition insert_tail : string := "', 4326))".

Definition inserted_geometry (sql : string) : option string :=
  let n := String.length sql in
  let h := String.length insert_head in
  let t := String.length insert_tail in
  if Nat.leb (h + t) n && String.prefix insert_head sql
     && String.eqb (substring (n - t) t sql) insert_tail
  then Some (substring h (n - h - t) sql)
  else None.

(** A statement run through [sqlite3_exec]: BEGIN opens a transaction, an
    INSERT adds its row to the transaction, or to the table when there is
    none, COMMIT moves the rows of the transaction into the table; closing
    the connection drops the rows of a transaction left open. *)
Definition toy_exec (sql : string) (s : toy_state) : reply * toy_state :=
  if String.eqb sql init_sql then
    (toy_ok, Toy true (prepared s) (points s) (pending s))
  else if String.eqb sql begin_sql then
    match pending s with
    | None => (toy_ok, Toy (has_metadata s) (prepared s) (points s) (Some []))
    | Some _ => (toy_ok, s)
    end
  else if String.eqb sql commit_sql then
    match pending s with
    | Some rows => (toy_ok, Toy (has_metadata s) (prepared s) (points s ++ rows) None)
    | None => (toy_ok, s)
    end
  else
    match inserted_geometry sql, pending s with
    | Some g, Some rows =>
        (toy_ok, Toy (has_metadata s) (prepared s) (points s) (Some (rows ++ [g])))
    | Some g, None =>
        (toy_ok, Toy (has_metadata s) (prepared s) (points s ++ [g]) None)
    | None, _ => (toy_ok, s)
    end.

(** The entry of the layer for the point of a containment query. *)
Definition region_of (layer : list (string * option string)) (sql : string)
    : option (option string) :=
  snd <$> (snd <$> list_find (fun q => within_sql "location" ("", q.1) = sql) layer).

Definition toy_respond (layer : list (string * option string)) (broken : call -> bool)
    (c : call) (s : toy_state) : reply * toy_state :=
  if broken c then
    match c with
    | sqlite3_open_v2 _ _ => (Reply 14 1001 "unable to open database file", s)
    | sqlite3_errmsg _ => (Reply 0 0 "file is not a database", s)
    | _ => (toy_error, s)
    end
  else
    match c with
    | sqlite3_libversion => (Reply 0 0 "3.45.1", s)
    | spatialite_version => (Reply 0 0 "5.1.0", s)
    | sqlite3_open_v2 _ _ => (Reply SQLITE_OK 1001 "", s)
    | spatialite_alloc_connection => (Reply SQLITE_OK 2002 "", s)
    | sqlite3_errmsg _ => (Reply 0 0 "not an error", s)
    | sqlite3_exec _ sql => toy_exec sql s
    | sqlite3_prepare_v2 _ sql =>
        (Reply SQLITE_OK 3003 "", Toy (has_metadata s) sql (points s) (pending s))
    | sqlite3_step _ =>
        if String.eqb (prepared s) check_sql then
          (Reply (if has_metadata s then SQLITE_ROW else SQLITE_DONE) 0 "", s)
        else
          match region_of layer (prepared s) with
          | Some _ => (Reply SQLITE_ROW 0 "", s)
          | None => (Reply SQLITE_DONE 0 "", s)
          end
    | sqlite3_column_text _ _ =>
        match region_of layer (prepared s) with
        | Some (Some name) => (Reply 0 4004 name, s)
        | _ => (Reply 0 0 "", s)
        end
    | sqlite3_close _ =>
        (toy_ok, Toy (has_metadata s) (prepared s) (points s) None)
    | _ => (toy_ok, s)
    end.

Definition toy (layer : list (string * option string)) (broken : call -> bool) : Engine :=
  {| engine_state := toy_state; respond := toy_respond layer broken |}.

(** The Brazilian states layer at the points of Example 2, and the same
    layer when the state of Foz do Iguacu has no name. *)
Definition brazil : list (string * option string) :=
  [ ("POINT(-43.1729 -22.9068)", Some "Rio de Janeiro");
    ("POINT(-54.5854 -25.5165)", Some "Parana");
    ("POINT(-32.423786 -3.853808)", Some "Pernambuco") ].

Definition brazil_unnamed : list (string * option string) :=
  [ ("POINT(-43.1729 -22.9068)", Some "Rio de Janeiro");
    ("POINT(-54.5854 -25.5165)", None);
    ("POINT(-32.423786 -3.853808)", Some "Pernambuco") ].

Definition healthy : call -> bool := fun _ => false.

Definition fresh (E : Engine) (s : @engine_state E) : world E := @World E s ∅.


(** Ways for the engine to fail. *)

(** The file is not a database: compiling the first statement fails. *)
Definition fails_check (c : call) : bool :=
  match c with
  | sqlite3_prepare_v2 _ sql => String.eqb sql check_sql
  | sqlite3_errmsg _ => true
  | _ => false
  end.

(** The second INSERT of Example 1 is rejected. *)
Definition fails_second_insert (c : call) : bool :=
  match c with
  | sqlite3_exec _ sql =>
      String.eqb sql (insert_sql "points" ("Foz do Iguacu", "POINT(-54.5854 -25.5165)"))
  | _ => false
  end.

(** Every [sqlite3_step] returns an error status. *)
Definition fails_steps (c : call) : bool :=
  match c with
  | sqlite3_step _ => true
  | _ => false
  end.

(** The file cannot be opened. *)
Definition fails_open (c : call) : bool :=
  match c with
  | sqlite3_open_v2 _ _ => true
  | _ => false
  end.

(** The connection cannot be closed. *)
Definition fails_close (c : call) : bool :=
  match c with
  | sqlite3_close _ => true
  | _ => false
  end.

(** The query for Null Island does not compile. *)
Definition fails_fourth_query (c : call) : bool :=
  match c with
  | sqlite3_prepare_v2 _ sql =>
      String.eqb sql (within_sql "location" ("Null Island", "POINT(0 0)"))
  | _ => false
  end.

(** A new database, and one that already holds the spatial metadata. *)
Definition new_database (broken : call -> bool) : world (toy brazil broken) :=
  fresh (toy brazil broken) (Toy false "" [] None).

Definition initialized_database (broken : call -> bool) : world (toy brazil broken) :=
  fresh (toy brazil broken) (Toy true "" [] None).

(** A database that holds [rows] in table [points]. *)
Definition database_with (md : bool) (rows : list string)
    : world (toy brazil healthy) :=
  fresh (toy brazil healthy) (Toy md "" rows None).

(** A new database on the layer where a state has no name. *)
Definition unnamed_database : world (toy brazil_unnamed healthy) :=
  fresh (toy brazil_unnamed healthy) (Toy false "" [] None).

(** ** The shape of the two loops

    What one run of each loop writes to the log, case by case of the
    engine's replies, and whether the loop body returned from the
    function. *)

Definition teardown (db_handle cache : Z) (r1 r2 r3 : reply) : list event :=
  [ Call (sqlite3_close db_handle) r1;
    Call (spatialite_cleanup_ex cache) r2;
    Call spatialite_shutdown r3 ].

Definition handled (db_handle cache : Z) (msg : string) (r0 r1 r2 r3 : reply)
    : list event :=
  Stderr ("Error: " +:+ msg +:+ endl) :: Call (sqlite3_free msg) r0
    :: teardown db_handle cache r1 r2 r3.

Inductive inserted (db_handle cache : Z) (table_name : string) :
    list (string * string) -> outcome (option Z) -> list event -> Prop :=
| inserted_all :
    inserted db_handle cache table_name [] (Normal None) []
| inserted_one place places e o t :
    rc e = SQLITE_OK ->
    inserted db_handle cache table_name places o t ->
    inserted db_handle cache table_name (place :: places) o
      (Stdout ("Adding " +:+ place.1 +:+ ": " +:+ place.2 +:+ endl)
       :: Call (sqlite3_exec db_handle (insert_sql table_name place)) e :: t)
| inserted_failed place places e r0 r1 r2 r3 :
    rc e <> SQLITE_OK ->
    inserted db_handle cache table_name (place :: places) (Normal (Some 1%Z))
      (Stdout ("Adding " +:+ place.1 +:+ ": " +:+ place.2 +:+ endl)
       :: Call (sqlite3_exec db_handle (insert_sql table_name place)) e
       :: Stderr ("Error adding " +:+ place.1 +:+ ": " +:+ txt e +:+ endl)
       :: handled db_handle cache (txt e) r0 r1 r2 r3).

Inductive queried (db_handle cache : Z) (table_name : string) :
    list (string * string) -> outcome (option Z) -> list event -> Prop :=
| queried_all :
    queried db_handle cache table_name [] (Normal None) []
| queried_row place places p s c f o t :
    rc p = SQLITE_OK ->
    rc s = SQLITE_ROW ->
    ptr c <> 0%Z ->
    queried db_handle cache table_name places o t ->
    queried db_handle cache table_name (place :: places) o
      (Call (sqlite3_prepare_v2 db_handle (within_sql table_name place)) p
       :: Call (sqlite3_step (ptr p)) s
       :: Call (sqlite3_column_text (ptr p) 0) c
       :: Stdout (place.1 +:+ " ---> " +:+ txt c +:+ endl)
       :: Call (sqlite3_finalize (ptr p)) f :: t)
| queried_null place places p s c f o t :
    rc p = SQLITE_OK ->
    rc s = SQLITE_ROW ->
    ptr c = 0%Z ->
    queried db_handle cache table_name places o t ->
    queried db_handle cache table_name (place :: places) o
      (Call (sqlite3_prepare_v2 db_handle (within_sql table_name place)) p
       :: Call (sqlite3_step (ptr p)) s
       :: Call (sqlite3_column_text (ptr p) 0) c
       :: Stdout (place.1 +:+ " ---> ")
       :: Stdout_null
       :: Stdout endl
       :: Call (sqlite3_finalize (ptr p)) f :: t)
| queried_no_row place places p s f o t :
    rc p = SQLITE_OK ->
    rc s <> SQLITE_ROW ->
    queried db_handle cache table_name places o t ->
    queried db_handle cache table_name (place :: places) o
      (Call (sqlite3_prepare_v2 db_handle (within_sql table_name place)) p
       :: Call (sqlite3_step (ptr p)) s
       :: Stdout (place.1 +:+ " ---> " +:+ "Not found" +:+ endl)
       :: Call (sqlite3_finalize (ptr p)) f :: t)
| queried_failed place places p m r1 r2 r3 :
    rc p <> SQLITE_OK ->
    queried db_handle cache table_name (place :: places) (Normal (Some 1%Z))
      (Call (sqlite3_prepare_v2 db_handle (within_sql table_name place)) p
       :: Call (sqlite3_errmsg db_handle) m
       :: Stderr ("Error preparing statement: " +:+ txt m +:+ endl)
       :: teardown db_handle cache r1 r2 r3).

(** ** The two runners, for statements about both *)

Inductive example : Type := Example1 | Example2.

Definition run_example `{Engine} (x : example) : string -> M _ Z :=
  match x with
  | Example1 => run_example_1
  | Example2 => run_example_2
  end.

(** The statement each runner executes right after the bootstrap step. *)
Definition first_statement (x : example) : string :=
  match x with
  | Example1 => create_sql "points"
  | Example2 => import_sql "../shp/BR_UF_2022" "location"
  end.

(** ** An engine that serves Example 2

    Which region contains a point is decided by SpatiaLite on the layer the
    shapefile holds; neither is part of the program.  [layer] gives, for
    the text of a point, the name of the region that contains it, or
    nothing when no region does.  What is asked of the engine is asked of
    its states: [Ready] before the database is opened, [Connected db] while
    the connection [db] is open, [Loaded db] once the layer is imported
    through it. *)

(** The calls that release the connection, the cache or the extension. *)
Definition releases (c : call) : bool :=
  match c with
  | sqlite3_close _ | spatialite_cleanup_ex _ | spatialite_shutdown => true
  | _ => false
  end.

(** The engine's answer to the containment query for [place], compiled
    from state [s] and stepped once, is the one [a] says: the query
    compiles, and its step returns a row whose first column is the text
    [region], or the end of the rows at once. *)
Definition answered `{Engine} (db : Z) (place : string * string)
    (a : option string) (s : engine_state) : Prop :=
  let p := respond (sqlite3_prepare_v2 db (within_sql "location" place)) s in
  let r := respond (sqlite3_step (ptr p.1)) p.2 in
  rc p.1 = SQLITE_OK /\
  match a with
  | Some region =>
      rc r.1 = SQLITE_ROW /\
      let c := respond (sqlite3_column_text (ptr p.1) 0) r.2 in
      ptr c.1 <> 0%Z /\ txt c.1 = region
  | None => rc r.1 = SQLITE_DONE
  end.

(** The engine serves the layer: when ready it opens the database; on an
    open connection it compiles the existence check, accepts the
    initialization of the metadata and imports the shapefile; once the
    layer is imported it answers the containment queries as the layer
    says; and a connection stays open, and a layer imported, until
    something is released. *)
Record serves `{Engine} (Ready : engine_state -> Prop)
    (Connected Loaded : Z -> engine_state -> Prop)
    (layer : list (string * option string)) : Prop := Serves {
  opens_database : forall filename flags s,
    Ready s ->
    let o := respond (sqlite3_open_v2 filename flags) s in
    rc o.1 = SQLITE_OK /\ Connected (ptr o.1) o.2;
  stays_connected : forall db c s,
    Connected db s -> releases c = false -> Connected db (respond c s).2;
  compiles_check : forall db s,
    Connected db s -> rc (respond (sqlite3_prepare_v2 db check_sql) s).1 = SQLITE_OK;
  initializes : forall db s,
    Connected db s -> rc (respond (sqlite3_exec db init_sql) s).1 = SQLITE_OK;
  imports : forall db s,
    Connected db s ->
    let e := respond (sqlite3_exec db (import_sql "../shp/BR_UF_2022" "location")) s in
    rc e.1 = SQLITE_OK /\ Loaded db e.2;
  stays_loaded : forall db c s,
    Loaded db s -> releases c = false -> Loaded db (respond c s).2;
  answers_layer : forall db place a s,
    Loaded db s -> In (place.2, a) layer -> answered db place a s
}.

(** ** Reading a command line *)

(** The returns of [getopt_long] that make [parse_args] print the usage
    message. *)
Definition asks_usage (r : optret) : bool :=
  Ascii.eqb (opt_c r) "h" || Ascii.eqb (opt_c r) "?".

(** The [optarg] of the last return for option [c], if there is one. *)
Definition last_optarg (c : ascii) (rets : list optret) : option string :=
  last (map optarg (List.filter (fun r => Ascii.eqb (opt_c r) c) rets)).

(** The database [main] hands to the runner. *)
Definition target (v : locals) : string :=
  if in_memory_db v then ":memory:" else db_name v.

(** The identifier of each example in the [switch] of [main]. *)
Definition number (x : example) : Z :=
  match x with
  | Example1 => 1%Z
  | Example2 => 2%Z
  end.

(** ** Lifetimes of the connection and of its cache *)

Record lifetimes : Type := Lifetimes { handle_open : bool; cache_live : bool }.

Definition track (l : lifetimes) (c : lifecycle_call) : lifetimes :=
  match c with
  | Open _ => Lifetimes true (cache_live l)
  | Alloc _ => Lifetimes (handle_open l) true
  | Close _ => Lifetimes false (cache_live l)
  | Cleanup _ => Lifetimes (handle_open l) false
  | Attach _ _ | Shutdown => l
  end.

(** At no point of the log is the cache alive while the handle is closed. *)
Fixpoint cache_within_handle (l : lifetimes) (cs : list lifecycle_call) : bool :=
  match cs with
  | [] => true
  | c :: cs' =>
      let l' := track l c in
      implb (cache_live l') (handle_open l') && cache_within_handle l' cs'
  end.

(** At the end of the log neither is left alive. *)
Definition all_released (cs : list lifecycle_call) : bool :=
  let l := fold_left track cs (Lifetimes false false) in
  negb (handle_open l) && negb (cache_live l).

Definition allocated (t : list event) : Prop :=
  exists cache, In (Alloc cache) (lifecycle t).

Definition matched_lifetimes (t : list event) : Prop :=
  all_released (lifecycle t) = true /\
  cache_within_handle (Lifetimes false false) (lifecycle t) = true.

(** ** The usage message *)

Definition usage : list string :=
  [ "Usage: sqlite3_spatialite_app [options]" +:+ endl;
    "Options:" +:+ endl;
    "  -h, --help              Show this help message" +:+ endl;
    "  -i, --example-id <id>   ID of the example to run" +:+ endl;
    "  -n, --db-name <name>    Name of the database file (if not provided, in-memory)"
      +:+ endl ].

(** ** Reasoning about runs

    [wp m Q w] holds when the run of [m] from [w] ends in an outcome, a
    world and a log that satisfy [Q]. *)
Definition wp `{Engine} {A} (m : M _ A)
    (Q : outcome A -> world _ -> list event -> Prop) (w : world _) : Prop :=
  Q (result m w) (final m w) (events m w).

Section Proofs.
Context `{Engine}.

Local Abbreviation post A := (outcome A -> world _ -> list event -> Prop).

(** *** One rule for each way of building a computation *)

Lemma wp_elim {A} (m : M _ A) (w : world _) (Q : post A) :
  wp m Q w -> Q (result m w) (final m w) (events m w).
Proof. exact (fun q => q). Qed.

Lemma wp_mono {A} (m : M _ A) (w : world _) (P Q : post A) :
  wp m P w -> (forall o w' t, P o w' t -> Q o w' t) -> wp m Q w.
Proof. unfold wp. auto. Qed.

Lemma wp_ret {A} (a : A) (w : world _) (Q : post A) :
  Q (Normal a) w [] -> wp (mret a) Q w.
Proof. exact (fun q => q). Qed.

Lemma wp_throw {A} what (w : world _) (Q : post A) :
  Q (Thrown what) w [] -> wp (throw what) Q w.
Proof. exact (fun q => q). Qed.

Lemma wp_exit {A} status (w : world _) (Q : post A) :
  Q (Exited status) w [] -> wp (exit status) Q w.
Proof. exact (fun q => q). Qed.

Lemma wp_bind {A B} (m : M _ A) (f : A -> M _ B) (w : world _) (Q : post B) :
  wp m (fun o w1 t1 =>
          match o with
          | Normal a => wp (f a) (fun o2 w2 t2 => Q o2 w2 (t1 ++ t2)) w1
          | Thrown what => Q (Thrown what) w1 t1
          | Exited status => Q (Exited status) w1 t1
          end) w ->
  wp (m ≫= f) Q w.
Proof.
  unfold wp, result, final, events, mbind, M_bind.
  destruct (m w) as [[[a | what | status] w1] t1]; cbn; auto.
  destruct (f a w1) as [[o2 w2] t2]; cbn; auto.
Qed.

Lemma wp_engine (c : call) (w : world _) (Q : post reply) :
  (forall r s, respond c (eng w) = (r, s) ->
               Q (Normal r) (World s (environ w)) [Call c r]) ->
  wp (engine c) Q w.
Proof.
  unfold wp, result, final, events, engine. intros HQ.
  destruct (respond c (eng w)) as [r s] eqn:Er. cbn. auto.
Qed.

Lemma wp_cout s (w : world _) (Q : post unit) :
  Q (Normal tt) w [Stdout s] -> wp (cout s) Q w.
Proof. exact (fun q => q). Qed.

Lemma wp_cerr s (w : world _) (Q : post unit) :
  Q (Normal tt) w [Stderr s] -> wp (cerr s) Q w.
Proof. exact (fun q => q). Qed.

Lemma wp_cout_null (w : world _) (Q : post unit) :
  Q (Normal tt) w [Stdout_null] -> wp cout_null Q w.
Proof. exact (fun q => q). Qed.

Lemma wp_setenv_overwrite name value k (w : world _) (Q : post unit) :
  k <> 0%Z ->
  Q (Normal tt) (World (eng w) (<[name := value]> (environ w)))
    [Setenv name value k] ->
  wp (setenv name value k) Q w.
Proof.
  unfold wp, result, final, events, setenv. cbn. intros Hk.
  destruct (Z.eqb_spec k 0); [contradiction | auto].
Qed.

Lemma wp_or_else (blk : M _ (option Z)) (rest : M _ Z) (w : world _) (Q : post Z) :
  wp blk (fun o w1 t1 =>
            match o with
            | Normal (Some v) => Q (Normal v) w1 t1
            | Normal None => wp rest (fun o2 w2 t2 => Q o2 w2 (t1 ++ t2)) w1
            | Thrown what => Q (Thrown what) w1 t1
            | Exited status => Q (Exited status) w1 t1
            end) w ->
  wp (or_else blk rest) Q w.
Proof.
  intros Hb. unfold or_else. apply wp_bind.
  eapply wp_mono; [exact Hb |].
  intros [[v |] | what | status] w1 t1; cbn; auto.
  intros HQ. apply wp_ret. now rewrite app_nil_r.
Qed.

(** One step of symbolic execution. *)
Ltac wp_step :=
  lazymatch goal with
  | |- wp (mret _) _ _ => apply wp_ret
  | |- wp (throw _) _ _ => apply wp_throw
  | |- wp (exit _) _ _ => apply wp_exit
  | |- wp (engine _) _ _ =>
      let r := fresh "r" in
      let s := fresh "s" in
      apply wp_engine; intros r s _; cbn [eng environ]
  | |- wp (cout _) _ _ => apply wp_cout
  | |- wp (cerr _) _ _ => apply wp_cerr
  | |- wp cout_null _ _ => apply wp_cout_null
  | |- wp (setenv _ _ _) _ _ => apply wp_setenv_overwrite; [discriminate |]
  | |- wp (or_else _ _) _ _ => apply wp_or_else
  | |- wp (_ ≫= _) _ _ => apply wp_bind
  | |- wp (if negb (?a =? ?b)%Z then _ else _) _ _ =>
      let Hrc := fresh "Hrc" in
      destruct (Z.eqb_spec a b) as [Hrc | Hrc]; cbn [negb]
  | |- wp (if (?a =? ?b)%Z then _ else _) _ _ =>
      let Hrc := fresh "Hrc" in
      destruct (Z.eqb_spec a b) as [Hrc | Hrc]
  | |- wp (if negb ?b then _ else _) _ _ => destruct b; cbn [negb]
  | |- wp (handle_error _ _ _) _ _ => unfold handle_error
  | |- wp (spatial_metadata_exists _) _ _ => unfold spatial_metadata_exists
  | |- wp (let _ := _ in _) _ _ => cbv zeta
  end.

(** *** The two loops, by induction on the list of places *)

Lemma insert_places_inserted db cache tbl places (w : world _) :
  wp (insert_places db cache tbl places)
     (fun o w' t => inserted db cache tbl places o t /\ environ w' = environ w) w.
Proof.
  revert w. induction places as [| place places IH]; intros w; cbn [insert_places].
  - apply wp_ret. split; [constructor | reflexivity].
  - do 5 (wp_step; cbn beta iota).
    + eapply wp_mono; [apply IH |]. cbn. intros o w' t [Ht Hw]. split; [| exact Hw].
      now apply inserted_one.
    + repeat (wp_step; cbn beta iota).
      split; [| reflexivity]. now apply inserted_failed.
Qed.

Lemma query_places_queried db cache tbl places (w : world _) :
  wp (query_places db cache tbl places)
     (fun o w' t => queried db cache tbl places o t /\ environ w' = environ w) w.
Proof.
  revert w. induction places as [| place places IH]; intros w; cbn [query_places].
  - apply wp_ret. split; [constructor | reflexivity].
  - do 3 (wp_step; cbn beta iota).
    + do 4 (wp_step; cbn beta iota).
      * do 3 (wp_step; cbn beta iota).
        -- repeat (wp_step; cbn beta iota).
           eapply wp_mono; [apply IH |]. cbn. intros o w' t [Ht Hw].
           split; [| exact Hw]. now apply queried_null.
        -- repeat (wp_step; cbn beta iota).
           eapply wp_mono; [apply IH |]. cbn. intros o w' t [Ht Hw].
           split; [| exact Hw]. now apply queried_row.
      * repeat (wp_step; cbn beta iota).
        eapply wp_mono; [apply IH |]. cbn. intros o w' t [Ht Hw]. split; [| exact Hw].
        now apply queried_no_row.
    + repeat (wp_step; cbn beta iota).
      split; [| reflexivity]. now apply queried_failed.
Qed.

(** *** Reading the log of a loop *)

Lemma pick_app {A} (f : event -> option A) t1 t2 :
  pick f (t1 ++ t2) = pick f t1 ++ pick f t2.
Proof.
  induction t1 as [| e t1 IH]; cbn; [reflexivity |].
  destruct (f e); cbn; now rewrite IH.
Qed.

Ltac read_log :=
  unfold allocated, lifecycle, execs, prepares, steps, columns, setenvs, stdout,
    stderr, calls, opens, closes, finalized, freed, stepped, uses, teardown,
    handled in *;
  cbn [app] in *;
  repeat first
    [ rewrite pick_app in *
    | progress cbn [pick app call_of stdout_of stderr_of setenv_of exec_of
                    prepare_of step_of column_of lifecycle_of open_of close_of
                    finalize_of free_of stepped_of use_of] in * ].

Lemma inserted_returns db cache tbl places o t :
  inserted db cache tbl places o t -> o = Normal None \/ o = Normal (Some 1%Z).
Proof. induction 1; auto. Qed.

Lemma inserted_lifecycle db cache tbl places o t :
  inserted db cache tbl places o t ->
  lifecycle t = match o with
                | Normal None => []
                | _ => [Close db; Cleanup cache; Shutdown]
                end.
Proof. induction 1; read_log; auto. Qed.

Lemma queried_returns db cache tbl places o t :
  queried db cache tbl places o t -> o = Normal None \/ o = Normal (Some 1%Z).
Proof. induction 1; auto. Qed.

Lemma queried_lifecycle db cache tbl places o t :
  queried db cache tbl places o t ->
  lifecycle t = match o with
                | Normal None => []
                | _ => [Close db; Cleanup cache; Shutdown]
                end.
Proof. induction 1; read_log; auto. Qed.

Lemma insert_sql_is_insert tbl place :
  exists rest, insert_sql tbl place = String "I" rest.
Proof. unfold insert_sql. cbn. eauto. Qed.

Lemma inserted_execs_sql db cache tbl places o t :
  inserted db cache tbl places o t ->
  Forall (fun q => exists place, In place places /\ q.1 = insert_sql tbl place)
         (execs t).
Proof.
  induction 1; read_log.
  - constructor.
  - constructor; [exists place; cbn; auto |].
    eapply Forall_impl; [exact IHinserted |].
    cbn. intros q (pl & Hin & Hq). eauto.
  - constructor; [exists place; cbn; auto | constructor].
Qed.

Lemma inserted_all_execs db cache tbl places t :
  inserted db cache tbl places (Normal None) t ->
  map fst (execs t) = map (insert_sql tbl) places /\
  Forall (fun q => rc q.2 = SQLITE_OK) (execs t).
Proof.
  remember (Normal None) as o eqn:Ho. induction 1; read_log; try discriminate.
  - split; [reflexivity | constructor].
  - destruct (IHinserted Ho) as [Hs Hok]. split.
    + cbn. now rewrite Hs.
    + constructor; [exact H0 | exact Hok].
Qed.

Lemma inserted_failed_execs db cache tbl places v t :
  inserted db cache tbl places (Normal (Some v)) t ->
  exists pre q,
    execs t = pre ++ [q] /\
    Forall (fun q => rc q.2 = SQLITE_OK) pre /\ rc q.2 <> SQLITE_OK /\
    In ("Error: " +:+ txt q.2 +:+ endl) (stderr t).
Proof.
  remember (Normal (Some v)) as o eqn:Ho. induction 1; read_log; try discriminate.
  - destruct (IHinserted Ho) as (pre & q & Hpre & Hok & Hq & Hmsg).
    exists ((insert_sql tbl place, e) :: pre), q. rewrite Hpre. repeat split; auto.
  - exists [], (insert_sql tbl place, e). repeat split; auto. cbn. auto.
Qed.

Lemma inserted_quiet db cache tbl places o t :
  inserted db cache tbl places o t ->
  setenvs t = [] /\ prepares t = [] /\ steps t = [].
Proof. induction 1; read_log; auto. Qed.

Lemma queried_quiet db cache tbl places o t :
  queried db cache tbl places o t -> setenvs t = [] /\ execs t = [].
Proof. induction 1; read_log; auto. Qed.

Lemma queried_all_prepared db cache tbl places t :
  queried db cache tbl places (Normal None) t ->
  Forall (fun q => rc q.2 = SQLITE_OK) (prepares t) /\
  length (steps t) = length places.
Proof.
  remember (Normal None) as o eqn:Ho. induction 1; read_log; try discriminate.
  - split; [constructor | reflexivity].
  - destruct (IHqueried Ho) as [Hok Hlen]. split; [constructor; auto | cbn; lia].
  - destruct (IHqueried Ho) as [Hok Hlen]. split; [constructor; auto | cbn; lia].
  - destruct (IHqueried Ho) as [Hok Hlen]. split; [constructor; auto | cbn; lia].
Qed.

Lemma queried_failed_prepare db cache tbl places v t :
  queried db cache tbl places (Normal (Some v)) t ->
  Exists (fun q => rc q.2 <> SQLITE_OK) (prepares t).
Proof.
  remember (Normal (Some v)) as o eqn:Ho. induction 1; read_log; try discriminate.
  - apply Exists_cons_tl; auto.
  - apply Exists_cons_tl; auto.
  - apply Exists_cons_tl; auto.
  - apply Exists_cons_hd; auto.
Qed.

Lemma queried_failed_message db cache tbl places v t :
  queried db cache tbl places (Normal (Some v)) t ->
  exists m, In ("Error preparing statement: " +:+ txt m +:+ endl) (stderr t).
Proof.
  remember (Normal (Some v)) as o eqn:Ho. induction 1; read_log; try discriminate.
  - exact (IHqueried Ho).
  - exact (IHqueried Ho).
  - exact (IHqueried Ho).
  - exists m. now left.
Qed.

Lemma queried_not_found db cache tbl places o t :
  queried db cache tbl places o t ->
  forall (k : nat) place s,
    places !! k = Some place -> steps t !! k = Some s -> rc s <> SQLITE_ROW ->
    In (place.1 +:+ " ---> " +:+ "Not found" +:+ endl) (stdout t).
Proof.
  induction 1; read_log; intros k pl st Hk Hs Hrow.
  - discriminate Hk.
  - destruct k as [| k]; cbn in Hk, Hs.
    + injection Hs as ->. contradiction.
    + right. eapply IHqueried; eauto.
  - destruct k as [| k]; cbn in Hk, Hs.
    + injection Hs as ->. contradiction.
    + right. right. eapply IHqueried; eauto.
  - destruct k as [| k]; cbn in Hk, Hs.
    + injection Hk as ->. now left.
    + right. eapply IHqueried; eauto.
  - destruct k; discriminate Hs.
Qed.

Lemma failing_statement_is_last (pre : list (string * reply)) q x :
  Forall (fun q => rc q.2 = SQLITE_OK) pre ->
  In x (pre ++ [q]) -> rc x.2 <> SQLITE_OK -> x = q.
Proof.
  intros Hok Hin Hx. apply in_app_iff in Hin. destruct Hin as [Hin | [<- | []]].
  - destruct Hx. exact (proj1 (List.Forall_forall _ _) Hok x Hin).
  - reflexivity.
Qed.

(** Symbolic execution of a runner up to its leaves; the two loops are
    replaced by their shapes. *)
Ltac wp_loop :=
  lazymatch goal with
  | |- wp (insert_places ?db ?cache ?tbl ?ps) _ ?w =>
      let o := fresh "o" in
      let t := fresh "t" in
      let Ht := fresh "Ht" in
      eapply wp_mono; [apply insert_places_inserted |];
      cbn beta; intros o ? t [Ht ?];
      destruct (inserted_returns _ _ _ _ _ _ Ht) as [-> | ->]
  | |- wp (query_places ?db ?cache ?tbl ?ps) _ ?w =>
      let o := fresh "o" in
      let t := fresh "t" in
      let Ht := fresh "Ht" in
      eapply wp_mono; [apply query_places_queried |];
      cbn beta; intros o ? t [Ht ?];
      destruct (queried_returns _ _ _ _ _ _ Ht) as [-> | ->]
  end.

Ltac wp_run := repeat ((wp_step || wp_loop); cbn beta iota).

(** Every path of either runner, for a property [Q] of outcome, final
    world and log. *)
Ltac run_leaves Q :=
  apply (wp_elim _ _ Q);
  unfold run_example, run_example_1, run_example_2;
  wp_run; unfold Q; clear Q; cbn beta.

Ltac run_cases x Q := destruct x; run_leaves Q.

(** The leaves of a runner's execution tree, with what the loops logged
    replaced by the facts [facts_i] (Example 1) and [facts_q] (Example 2). *)
Ltac forget_loops facts_i facts_q :=
  repeat match goal with
  | Ht : inserted _ _ _ _ _ _ |- _ => facts_i Ht; clear Ht
  | Ht : queried _ _ _ _ _ _ |- _ => facts_q Ht; clear Ht
  end.

Ltac use_picks :=
  repeat match goal with
  | Hl : pick _ ?t = _ |- _ => is_var t; rewrite Hl in *; clear Hl
  end;
  cbn [app] in *.

(** Membership in a list built from conses and appends, case by case. *)
Ltac spread_in Hin :=
  repeat first
    [ rewrite map_app in Hin
    | rewrite in_app_iff in Hin
    | progress cbn [map fst snd In] in Hin ].

(** ** Lifetimes (C2) *)

(** C2, as amended.  On every path of either runner that allocated the
    cache and on which the runner returns, the connection is opened, the
    cache allocated and attached, and then the handle is closed, the cache
    released and the extension shut down, each exactly once and in this
    order: the handle is closed first, the cache is released right after. *)
Theorem returning_runs_release_handle_then_cache
    (x : example) (w : world _) (name : string) (v : Z) :
  result (run_example x name) w = Normal v ->
  allocated (events (run_example x name) w) ->
  exists db cache,
    lifecycle (events (run_example x name) w) =
      [Open db; Alloc cache; Attach db cache; Close db; Cleanup cache; Shutdown].
Proof.
  pose (Q := fun (o : outcome Z) (_ : world _) (t : list event) => o = Normal v -> allocated t ->
       exists db cache,
         lifecycle t =
           [Open db; Alloc cache; Attach db cache; Close db; Cleanup cache; Shutdown]).
  run_cases x Q.
  all: intros Hv Ha.
  all: forget_loops ltac:(fun Ht => pose proof (inserted_lifecycle _ _ _ _ _ _ Ht))
                    ltac:(fun Ht => pose proof (queried_lifecycle _ _ _ _ _ _ Ht)).
  all: read_log; try discriminate Hv; use_picks.
  all: try solve [eauto].
  all: destruct Ha as [c Hc]; cbn in Hc; intuition discriminate.
Qed.

(** ** Failure of the metadata check (C1) *)

(** C1.  When the connection is open and compiling the existence check
    fails, either runner prints the engine's message and ends in an
    exception nothing catches: the handle is not closed, the cache is not
    released, and the process has no exit code. *)
Theorem metadata_check_failure_skips_teardown
    (x : example) (w : world _) (name : string) (p : reply) :
  head (prepares (events (run_example x name) w)) = Some (check_sql, p) ->
  rc p <> SQLITE_OK ->
  result (run_example x name) w =
    Thrown "Error checking if spatial_ref_sys table exists" /\
  exit_code (result (run_example x name) w) = None /\
  (exists db cache,
     lifecycle (events (run_example x name) w) =
       [Open db; Alloc cache; Attach db cache]) /\
  (exists m,
     stderr (events (run_example x name) w) =
       ["Error checking if spatial_ref_sys table exists: " +:+ txt m +:+ endl]).
Proof.
  pose (Q := fun (o : outcome Z) (_ : world _) (t : list event) =>
       head (prepares t) = Some (check_sql, p) -> rc p <> SQLITE_OK ->
       o = Thrown "Error checking if spatial_ref_sys table exists" /\
       exit_code o = None /\
       (exists db cache, lifecycle t = [Open db; Alloc cache; Attach db cache]) /\
       (exists m,
          stderr t =
            ["Error checking if spatial_ref_sys table exists: " +:+ txt m +:+ endl])).
  run_cases x Q.
  all: intros Hp Hrcp.
  all: forget_loops ltac:(fun Ht => idtac) ltac:(fun Ht => idtac).
  all: read_log; try discriminate Hp.
  all: injection Hp as <-; try contradiction.
  all: repeat split; eauto.
Qed.

(** *** The failure paths that do tear down

    The three other ways a runner can fail, for comparison with the
    metadata check: they release what was acquired and return 1. *)

(** A run that never allocates the cache is a run whose open failed: the
    message of the engine is printed, the handle is closed, 1 is returned. *)
Lemma failed_open_closes_handle (x : example) (w : world _) (name : string) :
  ~ allocated (events (run_example x name) w) ->
  result (run_example x name) w = Normal 1%Z /\
  (exists db, lifecycle (events (run_example x name) w) = [Open db; Close db]) /\
  (exists m,
     stderr (events (run_example x name) w) =
       ["Error opening database: " +:+ txt m +:+ endl]).
Proof.
  pose (Q := fun (o : outcome Z) (_ : world _) (t : list event) =>
    ~ allocated t ->
    o = Normal 1%Z /\
    (exists db, lifecycle t = [Open db; Close db]) /\
    (exists m, stderr t = ["Error opening database: " +:+ txt m +:+ endl])).
  run_cases x Q.
  all: intros Hna.
  all: forget_loops ltac:(fun Ht => idtac) ltac:(fun Ht => idtac).
  all: read_log.
  all: try solve [destruct Hna; eexists; cbn; eauto 6].
  all: repeat split; eauto.
Qed.

(** X13.  A statement the engine rejects ends the run of either runner:
    its message is printed by [handle_error], the handle is closed, the
    cache released, the extension shut down and 1 returned. *)
Lemma failed_statement_tears_down
    (x : example) (w : world _) (name sql : string) (r : reply) :
  In (sql, r) (execs (events (run_example x name) w)) ->
  rc r <> SQLITE_OK ->
  result (run_example x name) w = Normal 1%Z /\
  In ("Error: " +:+ txt r +:+ endl) (stderr (events (run_example x name) w)) /\
  (exists db cache,
     lifecycle (events (run_example x name) w) =
       [Open db; Alloc cache; Attach db cache; Close db; Cleanup cache; Shutdown]).
Proof.
  pose (Q := fun (o : outcome Z) (_ : world _) (t : list event) =>
    In (sql, r) (execs t) ->
    rc r <> SQLITE_OK ->
    o = Normal 1%Z /\
    In ("Error: " +:+ txt r +:+ endl) (stderr t) /\
    (exists db cache,
       lifecycle t =
         [Open db; Alloc cache; Attach db cache; Close db; Cleanup cache; Shutdown])).
  run_cases x Q.
  all: intros Hin Hr.
  all: forget_loops
         ltac:(fun Ht =>
                 pose proof (inserted_lifecycle _ _ _ _ _ _ Ht) as Hlife;
                 first [ destruct (inserted_all_execs _ _ _ _ _ Ht) as [_ Hok]
                       | destruct (inserted_failed_execs _ _ _ _ _ _ Ht)
                           as (pre & q & Hpre & Hok & Hq & Hmsg) ])
         ltac:(fun Ht =>
                 pose proof (queried_lifecycle _ _ _ _ _ _ Ht) as Hlife;
                 destruct (queried_quiet _ _ _ _ _ _ Ht) as [_ Hex]).
  all: read_log; spread_in Hin.
  all: repeat match goal with
       | Hor : _ \/ _ |- _ => destruct Hor
       | Hf : False |- _ => destruct Hf
       | Heq : (_, _) = (_, _) |- _ =>
           apply pair_equal_spec in Heq; destruct Heq as [? ?]; subst
       end.
  all: try contradiction.
  all: try (rewrite Hex in *; contradiction).
  all: try match goal with
       | Hok : Forall _ (pick exec_of ?t), Hin : In _ (pick exec_of ?t) |- _ =>
           destruct Hr; exact (proj1 (List.Forall_forall _ _) Hok _ Hin)
       end.
  all: try match goal with
       | Hpre : pick exec_of ?t = _, Hin : In _ (pick exec_of ?t) |- _ =>
           rewrite Hpre in Hin;
           pose proof (failing_statement_is_last _ _ _ Hok Hin Hr) as <-;
           cbn [snd] in Hmsg
       end.
  all: rewrite ?Hlife.
  all: split; [reflexivity |]; split; [| eauto].
  all: repeat first [ left; reflexivity | right ].
  all: first [assumption | apply in_or_app; right; cbn; auto].
Qed.

(** X14.  A containment query that does not compile ends Example 2 in the
    same way, with the teardown written out in the loop: the engine's
    message is printed, the handle is closed, the cache released, the
    extension shut down and 1 returned. *)
Lemma failed_query_prepare_tears_down
    (w : world _) (name sql : string) (p : reply) :
  In (sql, p) (prepares (events (run_example_2 name) w)) ->
  sql <> check_sql ->
  rc p <> SQLITE_OK ->
  result (run_example_2 name) w = Normal 1%Z /\
  (exists m,
     In ("Error preparing statement: " +:+ txt m +:+ endl)
        (stderr (events (run_example_2 name) w))) /\
  (exists db cache,
     lifecycle (events (run_example_2 name) w) =
       [Open db; Alloc cache; Attach db cache; Close db; Cleanup cache; Shutdown]).
Proof.
  pose (Q := fun (o : outcome Z) (_ : world _) (t : list event) =>
    In (sql, p) (prepares t) ->
    sql <> check_sql ->
    rc p <> SQLITE_OK ->
    o = Normal 1%Z /\
    (exists m, In ("Error preparing statement: " +:+ txt m +:+ endl) (stderr t)) /\
    (exists db cache,
       lifecycle t =
         [Open db; Alloc cache; Attach db cache; Close db; Cleanup cache; Shutdown])).
  run_leaves Q.
  all: intros Hin Hsql Hp.
  all: forget_loops
         ltac:(fun Ht => idtac)
         ltac:(fun Ht =>
                 pose proof (queried_lifecycle _ _ _ _ _ _ Ht) as Hlife;
                 first [ destruct (queried_all_prepared _ _ _ _ _ Ht) as [Hok _]
                       | destruct (queried_failed_message _ _ _ _ _ _ Ht) as [m Hmsg] ]).
  all: read_log; spread_in Hin.
  all: repeat match goal with
       | Hor : _ \/ _ |- _ => destruct Hor
       | Hf : False |- _ => destruct Hf
       | Heq : (_, _) = (_, _) |- _ =>
           apply pair_equal_spec in Heq; destruct Heq as [? ?]; subst
       end.
  all: try contradiction.
  all: try match goal with
       | Hok : Forall _ (pick prepare_of ?t), Hin : In _ (pick prepare_of ?t) |- _ =>
           destruct Hp; exact (proj1 (List.Forall_forall _ _) Hok _ Hin)
       end.
  all: rewrite ?Hlife.
  all: split; [reflexivity |]; split; [exists m | eauto].
  all: repeat first [ assumption | right ].
Qed.

(** ** The bootstrap step (C4) *)

(** C4.  When the existence check finds the reference-systems table (its
    step, the first of the run, returns a row), neither runner executes
    [InitSpatialMetaData]: the bootstrap step issues no statement at all and
    the run goes on to its first statement proper. *)
Theorem bootstrap_skipped_when_metadata_exists
    (x : example) (w : world _) (name : string) (r : reply) :
  head (steps (events (run_example x name) w)) = Some r ->
  rc r = SQLITE_ROW ->
  (exists p,
     head (prepares (events (run_example x name) w)) = Some (check_sql, p) /\
     rc p = SQLITE_OK) /\
  ~ In init_sql (map fst (execs (events (run_example x name) w))) /\
  head (map fst (execs (events (run_example x name) w))) = Some (first_statement x).
Proof.
  pose (Q := fun (_ : outcome Z) (_ : world _) (t : list event) =>
       head (steps t) = Some r -> rc r = SQLITE_ROW ->
       (exists p, head (prepares t) = Some (check_sql, p) /\ rc p = SQLITE_OK) /\
       ~ In init_sql (map fst (execs t)) /\
       head (map fst (execs t)) = Some (first_statement x)).
  run_cases x Q.
  all: intros Hs Hrow.
  all: forget_loops
         ltac:(fun Ht => pose proof (inserted_execs_sql _ _ _ _ _ _ Ht);
                         destruct (inserted_quiet _ _ _ _ _ _ Ht) as (_ & _ & ?))
         ltac:(fun Ht => destruct (queried_quiet _ _ _ _ _ _ Ht) as (_ & ?)).
  all: read_log; try discriminate Hs.
  all: injection Hs as <-; try contradiction.
  all: use_picks.
  all: split; [eexists; split; [reflexivity | assumption] |].
  all: split; [| reflexivity].
  all: intros Hin; spread_in Hin.
  all: repeat match goal with
       | Hor : _ \/ _ |- _ => destruct Hor
       | Hf : False |- _ => destruct Hf
       | Heq : _ = init_sql |- _ => try discriminate Heq
       end.
  all: match goal with
       | Hall : Forall _ (pick exec_of ?t), Hm : In init_sql (map fst (pick exec_of ?t)) |- _ =>
           apply in_map_iff in Hm; destruct Hm as (q & Hq & Hqin);
           destruct (proj1 (List.Forall_forall _ _) Hall q Hqin) as (pl & _ & Hpl);
           destruct (insert_sql_is_insert "points" pl) as [rest Hrest];
           rewrite Hq, Hrest in Hpl; unfold init_sql in Hpl; discriminate Hpl
       end.
Qed.

(** ** Example 1: the inserts and their transaction (C6, C7) *)

Lemma insert_is_no_other_statement tbl place sql :
  insert_sql tbl place = sql ->
  String.prefix "INSERT INTO" sql = true.
Proof. intros <-. reflexivity. Qed.

(** A statement of the log that is an INSERT cannot be one of the fixed
    statements of the runners. *)
Ltac not_an_insert Heq :=
  apply insert_is_no_other_statement in Heq; vm_compute in Heq; discriminate Heq.

(** A run of Example 1 that returns 0 executed, after the bootstrap,
    exactly: the table creation, the registration of the geometry column,
    one BEGIN, one INSERT per place of the list, in list order and each
    under SRID 4326, and one COMMIT after the last of them; the engine
    accepted every statement. *)
Lemma successful_example_1_statements (w : world _) (name : string) :
  result (run_example_1 name) w = Normal 0%Z ->
  (exists pre,
     (pre = [] \/ pre = ["SELECT InitSpatialMetaData(1);"]) /\
     map fst (execs (events (run_example_1 name) w)) =
       pre ++
       [ "CREATE TABLE IF NOT EXISTS points (id INTEGER PRIMARY KEY AUTOINCREMENT NOT NULL)";
         "SELECT AddGeometryColumn('points', 'geom', 4326, 'POINT', 'XY')";
         "BEGIN TRANSACTION;";
         "INSERT INTO points (geom) VALUES (GeomFromText('POINT(-43.1729 -22.9068)', 4326))";
         "INSERT INTO points (geom) VALUES (GeomFromText('POINT(-54.5854 -25.5165)', 4326))";
         "INSERT INTO points (geom) VALUES (GeomFromText('POINT(-32.423786 -3.853808)', 4326))";
         "COMMIT" ]) /\
  Forall (fun q => rc q.2 = SQLITE_OK) (execs (events (run_example_1 name) w)).
Proof.
  pose (Q := fun (o : outcome Z) (_ : world _) (t : list event) =>
    o = Normal 0%Z ->
    (exists pre,
       (pre = [] \/ pre = ["SELECT InitSpatialMetaData(1);"]) /\
       map fst (execs t) =
         pre ++
         [ "CREATE TABLE IF NOT EXISTS points (id INTEGER PRIMARY KEY AUTOINCREMENT NOT NULL)";
           "SELECT AddGeometryColumn('points', 'geom', 4326, 'POINT', 'XY')";
           "BEGIN TRANSACTION;";
           "INSERT INTO points (geom) VALUES (GeomFromText('POINT(-43.1729 -22.9068)', 4326))";
           "INSERT INTO points (geom) VALUES (GeomFromText('POINT(-54.5854 -25.5165)', 4326))";
           "INSERT INTO points (geom) VALUES (GeomFromText('POINT(-32.423786 -3.853808)', 4326))";
           "COMMIT" ]) /\
    Forall (fun q => rc q.2 = SQLITE_OK) (execs t)).
  run_leaves Q.
  all: intros Hv; try discriminate Hv.
  all: forget_loops
         ltac:(fun Ht => destruct (inserted_all_execs _ _ _ _ _ Ht) as [Hsql Hok])
         ltac:(fun Ht => idtac).
  all: read_log.
  all: split;
    [ | repeat (apply Forall_cons; split; [assumption |]);
        apply Forall_app; split; [exact Hok | repeat constructor; assumption] ].
  all: first
    [ exists []; split; [now left |];
      cbn [map fst]; rewrite map_app, Hsql; reflexivity
    | exists ["SELECT InitSpatialMetaData(1);"]; split; [now right |];
      cbn [map fst]; rewrite map_app, Hsql; reflexivity ].
Qed.

Lemma inserted_written db cache tbl places t :
  inserted db cache tbl places (Normal None) t ->
  forall rest,
    written (t ++ rest) =
      map (fun place => "Adding " +:+ place.1 +:+ ": " +:+ place.2 +:+ endl) places
        ++ written rest.
Proof.
  remember (Normal None) as o eqn:Ho. induction 1; try discriminate; intros rest.
  - reflexivity.
  - cbn [app written map]. now rewrite (IHinserted Ho).
Qed.

(** What such a run writes: the names of the places appear in the progress
    lines, in list order, each with the text of its point. *)
Lemma successful_example_1_output (w : world _) (name : string) :
  result (run_example_1 name) w = Normal 0%Z ->
  exists pre,
    written (events (run_example_1 name) w) =
      pre ++
      [ "Creating table: points" +:+ endl;
        "Adding geometry column to table: points" +:+ endl;
        "Adding some tourist places in Brazil..." +:+ endl;
        "Adding Rio de Janeiro: POINT(-43.1729 -22.9068)" +:+ endl;
        "Adding Foz do Iguacu: POINT(-54.5854 -25.5165)" +:+ endl;
        "Adding Fernando de Noronha: POINT(-32.423786 -3.853808)" +:+ endl;
        "Committing transaction..." +:+ endl;
        "Example 1 Done." +:+ endl ].
Proof.
  pose (Q := fun (o : outcome Z) (_ : world _) (t : list event) =>
    o = Normal 0%Z ->
    exists pre,
      written t =
        pre ++
        [ "Creating table: points" +:+ endl;
          "Adding geometry column to table: points" +:+ endl;
          "Adding some tourist places in Brazil..." +:+ endl;
          "Adding Rio de Janeiro: POINT(-43.1729 -22.9068)" +:+ endl;
          "Adding Foz do Iguacu: POINT(-54.5854 -25.5165)" +:+ endl;
          "Adding Fernando de Noronha: POINT(-32.423786 -3.853808)" +:+ endl;
          "Committing transaction..." +:+ endl;
          "Example 1 Done." +:+ endl ]).
  run_leaves Q.
  all: intros Hv; try discriminate Hv.
  all: forget_loops
         ltac:(fun Ht => pose proof (inserted_written _ _ _ _ _ Ht) as Hout)
         ltac:(fun Ht => idtac).
  all: cbn [written app]; rewrite Hout; cbn [written map places_1 fst snd app].
  all: first [ eexists [_; _; _]; reflexivity | eexists [_; _; _; _]; reflexivity ].
Qed.

Lemma insert_is_no_rollback tbl place :
  String.prefix "ROLLBACK" (insert_sql tbl place) = false.
Proof. reflexivity. Qed.

Lemma insert_is_no_commit tbl place : insert_sql tbl place <> commit_sql.
Proof. discriminate. Qed.

(** C7.  When the engine rejects one of the INSERT statements of Example 1,
    the runner returns 1, the rejected statement is the last one it
    executes, no statement of the run is a COMMIT or a ROLLBACK, and the
    connection is torn down. *)
Theorem failed_insert_leaves_transaction_uncommitted
    (w : world _) (name : string) (place : string * string) (r : reply) :
  In (insert_sql "points" place, r) (execs (events (run_example_1 name) w)) ->
  rc r <> SQLITE_OK ->
  result (run_example_1 name) w = Normal 1%Z /\
  last (execs (events (run_example_1 name) w)) = Some (insert_sql "points" place, r) /\
  (forall sql, In sql (map fst (execs (events (run_example_1 name) w))) ->
               sql <> commit_sql /\ String.prefix "ROLLBACK" sql = false) /\
  (exists db cache,
     lifecycle (events (run_example_1 name) w) =
       [Open db; Alloc cache; Attach db cache; Close db; Cleanup cache; Shutdown]).
Proof.
  pose (Q := fun (o : outcome Z) (_ : world _) (t : list event) =>
    In (insert_sql "points" place, r) (execs t) ->
    rc r <> SQLITE_OK ->
    o = Normal 1%Z /\
    last (execs t) = Some (insert_sql "points" place, r) /\
    (forall sql, In sql (map fst (execs t)) ->
                 sql <> commit_sql /\ String.prefix "ROLLBACK" sql = false) /\
    (exists db cache,
       lifecycle t =
         [Open db; Alloc cache; Attach db cache; Close db; Cleanup cache; Shutdown])).
  run_leaves Q.
  all: intros Hin Hr.
  all: forget_loops
         ltac:(fun Ht =>
                 pose proof (inserted_lifecycle _ _ _ _ _ _ Ht);
                 pose proof (inserted_execs_sql _ _ _ _ _ _ Ht);
                 first [ destruct (inserted_all_execs _ _ _ _ _ Ht) as [_ Hok]
                       | destruct (inserted_failed_execs _ _ _ _ _ _ Ht)
                           as (pre & q & Hpre & Hok & Hq & _) ])
         ltac:(fun Ht => idtac).
  all: read_log; spread_in Hin.
  all: repeat match goal with
       | Hor : _ \/ _ |- _ => destruct Hor
       | Hf : False |- _ => destruct Hf
       | Heq : (_, _) = (insert_sql _ _, _) |- _ =>
           apply pair_equal_spec in Heq; destruct Heq as [Heq ?];
           symmetry in Heq; try not_an_insert Heq
       end.
  all: try match goal with
       | Hok : Forall _ (pick exec_of ?t), Hin : In _ (pick exec_of ?t) |- _ =>
           destruct Hr; exact (proj1 (List.Forall_forall _ _) Hok _ Hin)
       end.
  all: split; [reflexivity |].
  all: rewrite Hpre in H3;
       pose proof (failing_statement_is_last pre q _ Hok H3 Hr) as <-.
  all: split; [rewrite Hpre, !app_comm_cons; apply last_snoc |].
  all: split; [| rewrite H1; eauto].
  all: intros sql Hsql; spread_in Hsql.
  all: repeat match goal with
       | Hor : _ \/ _ |- _ => destruct Hor as [<- | Hor]
       end.
  all: try (split; [discriminate | reflexivity]).
  all: apply in_map_iff in Hsql; destruct Hsql as (x & <- & Hx).
  all: destruct (proj1 (List.Forall_forall _ _) H2 x Hx) as (pl & _ & ->).
  all: split; [apply insert_is_no_commit | apply insert_is_no_rollback].
Qed.

(** ** Example 2: the containment queries (C5, C10) *)

(** *** On an engine that serves a layer *)

(** What is known of the engine's answers, once the reply to a call is
    [E]. *)
Ltac note_reply :=
  repeat match goal with
  | E : respond ?c ?s0 = (_, _), Ha : ?T |- _ =>
      lazymatch T with
      | respond _ _ = _ => fail
      | context [respond c s0] => rewrite E in Ha; cbn [fst snd] in Ha
      end
  end;
  repeat match goal with
  | Ha : ?A /\ _ |- _ =>
      lazymatch A with
      | context [respond _ _] => fail
      | _ => let Hc := fresh "Hc" in destruct Ha as [Hc Ha]
      end
  end.

(** What the contract [Hs] says of the call whose reply is [E]: its
    status, and what stays true of the state. *)
Ltac learn Hs E :=
  lazymatch type of E with
  | respond ?c ?s0 = (?r, ?s) =>
      lazymatch c with
      | sqlite3_open_v2 ?f ?k =>
          match goal with
          | Hr : _ s0 |- _ =>
              let Hc := fresh "Hc" in
              let Hk := fresh "Hk" in
              pose proof (opens_database _ _ _ _ Hs f k s0 Hr) as Hc;
              cbv zeta in Hc; rewrite E in Hc; cbn [fst snd] in Hc;
              destruct Hc as [Hc Hk]
          end
      | sqlite3_prepare_v2 ?db check_sql =>
          match goal with
          | Hk : _ db s0 |- _ =>
              let Hc := fresh "Hc" in
              pose proof (compiles_check _ _ _ _ Hs db s0 Hk) as Hc;
              rewrite E in Hc; cbn [fst snd] in Hc
          end
      | sqlite3_exec ?db init_sql =>
          match goal with
          | Hk : _ db s0 |- _ =>
              let Hc := fresh "Hc" in
              pose proof (initializes _ _ _ _ Hs db s0 Hk) as Hc;
              rewrite E in Hc; cbn [fst snd] in Hc
          end
      | sqlite3_exec ?db (import_sql _ _) =>
          match goal with
          | Hk : _ db s0 |- _ =>
              let Hc := fresh "Hc" in
              let Hl := fresh "Hl" in
              pose proof (imports _ _ _ _ Hs db s0 Hk) as Hc;
              cbv zeta in Hc; rewrite E in Hc; cbn [fst snd] in Hc;
              destruct Hc as [Hc Hl]
          end
      | _ => idtac
      end;
      repeat match goal with
      | Hk : _ ?db s0 |- _ =>
          first
            [ let Hn := fresh "Hl" in
              pose proof (stays_loaded _ _ _ _ Hs db c s0 Hk eq_refl) as Hn;
              rewrite E in Hn; cbn [snd] in Hn; clear Hk
            | let Hn := fresh "Hk" in
              pose proof (stays_connected _ _ _ _ Hs db c s0 Hk eq_refl) as Hn;
              rewrite E in Hn; cbn [snd] in Hn; clear Hk ]
      end
  end.

(** One step of symbolic execution on such an engine. *)
Ltac served_step Hs :=
  lazymatch goal with
  | |- wp (engine _) _ _ =>
      let r := fresh "r" in
      let s := fresh "s" in
      let E := fresh "E" in
      apply wp_engine; intros r s E; cbn [eng environ] in *;
      learn Hs E; note_reply
  | Hc : rc ?r = SQLITE_OK |- wp (if negb (rc ?r =? SQLITE_OK)%Z then _ else _) _ _ =>
      rewrite Hc; cbn [Z.eqb SQLITE_OK negb]
  | Hc : rc ?r = ?v |- wp (if (rc ?r =? SQLITE_ROW)%Z then _ else _) _ _ =>
      rewrite Hc;
      let b := eval vm_compute in (v =? SQLITE_ROW)%Z in
      change (v =? SQLITE_ROW)%Z with b; cbn iota
  | Hn : ptr ?r <> 0%Z |- wp (if (ptr ?r =? 0)%Z then _ else _) _ _ =>
      rewrite (proj2 (Z.eqb_neq _ _) Hn)
  | |- _ => wp_step
  end.

(** The query loop on an engine that serves the layer: every query
    compiles, and the line written for a point holds the region the layer
    gives for it, or "Not found". *)
Lemma query_places_served Ready Connected Loaded layer db cache places found
    (w : world _) :
  serves Ready Connected Loaded layer ->
  Loaded db (eng w) ->
  Forall2 (fun place a => In (place.2, a) layer) places found ->
  wp (query_places db cache "location" places)
     (fun o w' t =>
        o = Normal None /\
        map fst (prepares t) = map (within_sql "location") places /\
        stderr t = [] /\ lifecycle t = [] /\ execs t = [] /\
        forall rest,
          written (t ++ rest) =
            zip_with report places (map (default "Not found") found)
              ++ written rest) w.
Proof.
  intros Hs Hl Hall. revert w Hl.
  induction Hall as [| place a places found Hin Hall IH]; intros w Hl;
    cbn [query_places].
  - apply wp_ret. repeat split; auto.
  - pose proof (answers_layer _ _ _ _ Hs db place a _ Hl Hin) as Ha.
    unfold answered in Ha. cbv zeta in Ha.
    destruct a as [region |]; repeat (served_step Hs; cbn beta iota).
    all: eapply wp_mono; [apply IH; cbn [eng]; assumption |]; cbn beta.
    all: intros o w' t (-> & Hp & He & Hx & Hy & Hw).
    all: read_log; cbn [map fst]; rewrite Hp, He, Hx, Hy.
    all: repeat split; auto.
    all: intros rest; cbn [written app zip_with map default]; rewrite Hw.
    all: unfold report, id; rewrite ?Ha; reflexivity.
Qed.

(** Example 2 on an engine that serves a layer: the run goes through, and
    what it writes is decided by the layer. *)
Lemma example_2_served Ready Connected Loaded layer found (w : world _)
    (name : string) :
  serves Ready Connected Loaded layer ->
  Ready (eng w) ->
  Forall2 (fun place a => In (place.2, a) layer) places_2 found ->
  result (run_example_2 name) w = Normal 0%Z /\
  map fst (prepares (events (run_example_2 name) w)) =
    check_sql :: map (within_sql "location") places_2 /\
  exists init,
    (init = [] \/ init = ["Initializing Spatialite..." +:+ endl]) /\
    written (events (run_example_2 name) w) =
      ["Opening database: " +:+ name +:+ endl] ++ init ++
      [ "Importing shapefile: ../shp/BR_UF_2022" +:+ endl;
        "SELECT ImportSHP('../shp/BR_UF_2022', 'location', 'UTF-8')" +:+ endl;
        "Checking what are the correspoding State names for the following points:"
          +:+ endl ] ++
      zip_with report places_2 (map (default "Not found") found) ++
      ["Example 2 Done." +:+ endl].
Proof.
  intros Hs Hr Hall.
  pose (Q := fun (o : outcome Z) (_ : world _) (t : list event) =>
    o = Normal 0%Z /\
    map fst (prepares t) = check_sql :: map (within_sql "location") places_2 /\
    exists init,
      (init = [] \/ init = ["Initializing Spatialite..." +:+ endl]) /\
      written t =
        ["Opening database: " +:+ name +:+ endl] ++ init ++
        [ "Importing shapefile: ../shp/BR_UF_2022" +:+ endl;
          "SELECT ImportSHP('../shp/BR_UF_2022', 'location', 'UTF-8')" +:+ endl;
          "Checking what are the correspoding State names for the following points:"
            +:+ endl ] ++
        zip_with report places_2 (map (default "Not found") found) ++
        ["Example 2 Done." +:+ endl]).
  apply (wp_elim _ _ Q). unfold run_example_2.
  repeat first
    [ lazymatch goal with
      | |- wp (query_places _ _ _ _) _ _ =>
          eapply wp_mono;
            [ eapply (query_places_served _ _ _ _ _ _ _ found _ Hs);
              [cbn [eng]; assumption | exact Hall] |];
          cbn beta; intros ? ? ? (-> & Hp & He & Hx & Hy & Hw)
      end
    | served_step Hs; cbn beta iota ].
  all: unfold Q; clear Q; cbn beta.
  all: read_log; rewrite ?app_nil_r; cbn [map fst]; rewrite ?Hp.
  all: split; [reflexivity |]; split; [reflexivity |].
  all: cbn [written app]; rewrite Hw; cbn [written].
  all: first [ exists []; split; [now left | reflexivity]
             | eexists [_]; split; [now right | reflexivity] ].
Qed.

(** C5.  On an engine that serves a layer in which Rio de Janeiro, Foz do
    Iguacu and Fernando de Noronha each lie in a region and Null Island and
    New York lie in none, Example 2 compiles the existence check and the
    five queries in list order, returns 0, and what reaches standard output
    ends with a line for each point in list order: the region of each of
    the first three, "Not found" for each of the last two, the end of the
    rows being no failure. *)
Theorem example_2_reports_in_list_order
    (Ready : engine_state -> Prop) (Connected Loaded : Z -> engine_state -> Prop)
    (w : world _) (name : string) (a b c : string) :
  serves Ready Connected Loaded
    [ ("POINT(-43.1729 -22.9068)", Some a);
      ("POINT(-54.5854 -25.5165)", Some b);
      ("POINT(-32.423786 -3.853808)", Some c);
      ("POINT(0 0)", None);
      ("POINT(-74.0060 40.7128)", None) ] ->
  Ready (eng w) ->
  result (run_example_2 name) w = Normal 0%Z /\
  map fst (prepares (events (run_example_2 name) w)) =
    check_sql :: map (within_sql "location") places_2 /\
  exists init,
    (init = [] \/ init = ["Initializing Spatialite..." +:+ endl]) /\
    written (events (run_example_2 name) w) =
      ["Opening database: " +:+ name +:+ endl] ++ init ++
      [ "Importing shapefile: ../shp/BR_UF_2022" +:+ endl;
        "SELECT ImportSHP('../shp/BR_UF_2022', 'location', 'UTF-8')" +:+ endl;
        "Checking what are the correspoding State names for the following points:"
          +:+ endl;
        "Rio de Janeiro ---> " +:+ a +:+ endl;
        "Foz do Iguacu ---> " +:+ b +:+ endl;
        "Fernando de Noronha ---> " +:+ c +:+ endl;
        "Null Island ---> Not found" +:+ endl;
        "New York ---> Not found" +:+ endl;
        "Example 2 Done." +:+ endl ].
Proof.
  intros Hs Hr.
  apply (example_2_served Ready Connected Loaded _
           [Some a; Some b; Some c; None; None] w name Hs Hr).
  unfold places_2.
  repeat match goal with
  | |- Forall2 _ (_ :: _) _ => constructor; [cbn; tauto |]
  end.
  constructor.
Qed.

(** C10.  Once the shapefile is imported, Example 2 either compiles all
    five queries and returns 0, having stepped each of them whatever the
    steps returned, or fails to compile one and returns 1.  Every query
    whose step returns anything but a row, an error status included, is
    reported as "Not found". *)
Theorem step_failure_is_reported_as_not_found
    (w : world _) (name : string) (imp : reply) :
  In (import_sql "../shp/BR_UF_2022" "location", imp)
     (execs (events (run_example_2 name) w)) ->
  rc imp = SQLITE_OK ->
  ((result (run_example_2 name) w = Normal 0%Z /\
    Forall (fun q => rc q.2 = SQLITE_OK)
           (prepares (events (run_example_2 name) w)) /\
    length (steps (events (run_example_2 name) w)) = 6%nat)
   \/
   (result (run_example_2 name) w = Normal 1%Z /\
    Exists (fun q => rc q.2 <> SQLITE_OK)
           (prepares (events (run_example_2 name) w)))) /\
  (forall (k : nat) place s,
     places_2 !! k = Some place ->
     steps (events (run_example_2 name) w) !! S k = Some s ->
     rc s <> SQLITE_ROW ->
     In (place.1 +:+ " ---> " +:+ "Not found" +:+ endl)
        (stdout (events (run_example_2 name) w))).
Proof.
  pose (Q := fun (o : outcome Z) (_ : world _) (t : list event) =>
    In (import_sql "../shp/BR_UF_2022" "location", imp) (execs t) ->
    rc imp = SQLITE_OK ->
    ((o = Normal 0%Z /\
      Forall (fun q => rc q.2 = SQLITE_OK) (prepares t) /\
      length (steps t) = 6%nat)
     \/
     (o = Normal 1%Z /\
      Exists (fun q => rc q.2 <> SQLITE_OK) (prepares t))) /\
    (forall (k : nat) place s,
       places_2 !! k = Some place ->
       steps t !! S k = Some s ->
       rc s <> SQLITE_ROW ->
       In (place.1 +:+ " ---> " +:+ "Not found" +:+ endl) (stdout t))).
  run_leaves Q.
  all: intros Hin Himp.
  all: forget_loops
         ltac:(fun Ht => idtac)
         ltac:(fun Ht =>
                 pose proof (queried_not_found _ _ _ _ _ _ Ht) as Hnf;
                 destruct (queried_quiet _ _ _ _ _ _ Ht) as [_ Hex];
                 first [ destruct (queried_all_prepared _ _ _ _ _ Ht) as [Hok Hlen]
                       | pose proof (queried_failed_prepare _ _ _ _ _ _ Ht) as Hbad ]).
  all: read_log; spread_in Hin.
  all: rewrite ?app_nil_r in *.
  all: repeat match goal with
       | Hor : _ \/ _ |- _ => destruct Hor
       | Hf : False |- _ => destruct Hf
       | Heq : (_, _) = (_, _) |- _ =>
           apply pair_equal_spec in Heq; destruct Heq as [Heq ?];
           try (vm_compute in Heq; discriminate Heq); subst
       end.
  all: try contradiction.
  all: try (rewrite Hex in *; contradiction).
  all: split;
    [ first [ left; repeat split;
              [constructor; assumption | cbn [length]; rewrite Hlen; reflexivity]
            | right; split; [reflexivity |]; apply Exists_cons_tl; assumption ]
    | intros k place st Hk Hst Hrow; cbn in Hst;
      repeat right; first [apply in_or_app; left | idtac];
      eapply Hnf; eauto ].
Qed.

(** ** The environment (C8) *)

Lemma parse_opts_quiet rets v (w : world _) :
  wp (parse_opts rets v)
     (fun _ w' t => w' = w /\ calls t = [] /\ setenvs t = [] /\ stderr t = []) w.
Proof.
  revert v. induction rets as [| r rets IH]; intros v; cbn [parse_opts].
  - now apply wp_ret.
  - destruct (Ascii.eqb (opt_c r) "i"); [apply IH |].
    destruct (Ascii.eqb (opt_c r) "n"); [apply IH |].
    destruct (Ascii.eqb (opt_c r) "h" || Ascii.eqb (opt_c r) "?"); [| apply IH].
    unfold show_usage. repeat (wp_step; cbn beta iota). auto.
Qed.

(** C8.  Example 2 calls [setenv] once, as the first thing it does and so
    before the import, with SPATIALITE_SECURITY=relaxed and overwriting;
    whatever path it takes afterwards, the variable still has that value
    when it ends.  Example 1 and the argument parser never call [setenv]
    and leave the environment as it was. *)
Theorem security_relaxation_is_set_once_by_example_2 (w : world _) :
  (forall name,
     head (events (run_example_2 name) w) =
       Some (Setenv "SPATIALITE_SECURITY" "relaxed" 1) /\
     setenvs (events (run_example_2 name) w) =
       [("SPATIALITE_SECURITY", "relaxed", 1%Z)] /\
     environ (final (run_example_2 name) w) =
       <["SPATIALITE_SECURITY" := "relaxed"]> (environ w)) /\
  (forall name,
     setenvs (events (run_example_1 name) w) = [] /\
     environ (final (run_example_1 name) w) = environ w) /\
  (forall cl v,
     setenvs (events (parse_args cl v) w) = [] /\
     environ (final (parse_args cl v) w) = environ w).
Proof.
  split; [| split].
  - intros name.
    pose (Q := fun (_ : outcome Z) (w' : world _) (t : list event) =>
      head t = Some (Setenv "SPATIALITE_SECURITY" "relaxed" 1) /\
      setenvs t = [("SPATIALITE_SECURITY", "relaxed", 1%Z)] /\
      environ w' = <["SPATIALITE_SECURITY" := "relaxed"]> (environ w)).
    run_leaves Q.
    all: forget_loops
           ltac:(fun Ht => idtac)
           ltac:(fun Ht => destruct (queried_quiet _ _ _ _ _ _ Ht) as [? _]).
    all: read_log; use_picks; cbn [environ] in *.
    all: repeat split; solve [reflexivity | assumption].
  - intros name.
    pose (Q := fun (_ : outcome Z) (w' : world _) (t : list event) =>
      setenvs t = [] /\ environ w' = environ w).
    run_leaves Q.
    all: forget_loops
           ltac:(fun Ht => destruct (inserted_quiet _ _ _ _ _ _ Ht) as (? & _ & _))
           ltac:(fun Ht => idtac).
    all: read_log; use_picks; cbn [environ] in *.
    all: repeat split; solve [reflexivity | assumption].
  - intros cl v.
    apply (wp_elim (parse_args cl v) w
             (fun _ w' t => setenvs t = [] /\ environ w' = environ w)).
    unfold parse_args. do 3 (wp_step; cbn beta iota).
    eapply wp_mono; [apply parse_opts_quiet |]. cbn beta.
    intros o w' t (-> & _ & Hs & _).
    destruct o as [v' | what | status]; [| auto | auto].
    destruct (operands cl); repeat (wp_step; cbn beta iota);
      read_log; rewrite Hs; auto.
Qed.

(** ** The command line (C9, C3) *)

Lemma parse_opts_usage rets v (w : world _) :
  In "?"%char (map opt_c rets) ->
  wp (parse_opts rets v)
     (fun o w' t => o = Exited 0 /\ w' = w /\ t = map Stdout usage) w.
Proof.
  revert v. induction rets as [| r rets IH]; intros v Hin; [destruct Hin |].
  cbn [parse_opts].
  destruct (Ascii.eqb_spec (opt_c r) "i") as [Hi | _].
  { apply IH. destruct Hin as [Hq | Hin]; [| exact Hin].
    rewrite Hi in Hq. discriminate Hq. }
  destruct (Ascii.eqb_spec (opt_c r) "n") as [Hn | _].
  { apply IH. destruct Hin as [Hq | Hin]; [| exact Hin].
    rewrite Hn in Hq. discriminate Hq. }
  destruct (Ascii.eqb_spec (opt_c r) "h") as [_ | _]; cbn [orb].
  { unfold show_usage. repeat (wp_step; cbn beta iota). auto. }
  destruct (Ascii.eqb_spec (opt_c r) "?") as [_ | Hq].
  { unfold show_usage. repeat (wp_step; cbn beta iota). auto. }
  apply IH. destruct Hin as [Hq' | Hin]; [| exact Hin].
  cbn in Hq'. congruence.
Qed.

(** C9.  When [getopt_long] reports an option it does not recognise (it
    returns '?'), the program writes "parsing arguments..." and the usage
    message to standard output, nothing to standard error on its own
    account, calls nothing of the engine and exits with status 0: the very
    run that [--help] alone gives. *)
Theorem unknown_option_prints_usage_and_exits_0 (w : world _) (cl : cmdline) :
  In "?"%char (map opt_c (opts cl)) ->
  result (main cl) w = Exited 0 /\
  exit_code (result (main cl) w) = Some 0%Z /\
  events (main cl) w = Stdout ("parsing arguments..." +:+ endl) :: map Stdout usage /\
  result (main cl) w = result (main (CmdLine [OptRet "h" ""] [])) w /\
  events (main cl) w = events (main (CmdLine [OptRet "h" ""] [])) w.
Proof.
  intros Hin.
  assert (result (main cl) w = Exited 0 /\
          events (main cl) w =
            Stdout ("parsing arguments..." +:+ endl) :: map Stdout usage) as [Hr He].
  { apply (wp_elim (main cl) w
      (fun o _ t => o = Exited 0 /\
         t = Stdout ("parsing arguments..." +:+ endl) :: map Stdout usage)).
    unfold main, parse_args. do 4 (wp_step; cbn beta iota).
    eapply wp_mono; [apply (parse_opts_usage _ _ _ Hin) |]. cbn beta.
    intros o w' t (-> & -> & ->). auto. }
  rewrite Hr, He. repeat split; reflexivity.
Qed.

(** The default branch of the [switch] of [main]: an identifier that is
    neither 1 nor 2 once stored in the [uint8_t] is reported, no call is
    made to the engine and the status is 1. *)
Lemma unknown_example_id_exits_1 (w : world _) (id : string) :
  to_uint8 (atoi id) <> 1%Z -> to_uint8 (atoi id) <> 2%Z ->
  result (main (CmdLine [OptRet "i" id] [])) w = Normal 1%Z /\
  calls (events (main (CmdLine [OptRet "i" id] [])) w) = [] /\
  stderr (events (main (CmdLine [OptRet "i" id] [])) w) =
    ["Unknown example ID: " +:+ show_uint8 (to_uint8 (atoi id)) +:+ endl].
Proof.
  intros H1 H2.
  apply (wp_elim (main (CmdLine [OptRet "i" id] [])) w
    (fun o _ t => o = Normal 1%Z /\ calls t = [] /\
       stderr t = ["Unknown example ID: " +:+ show_uint8 (to_uint8 (atoi id)) +:+ endl])).
  unfold main, parse_args. cbn [opts operands parse_opts opt_c optarg Ascii.eqb].
  cbn -[to_uint8 atoi String.append].
  repeat (wp_step; cbn -[to_uint8 atoi String.append]); try contradiction.
  repeat split; reflexivity.
Qed.

Lemma run_example_1_opens (w : world _) (name : string) :
  exists r,
    In (sqlite3_open_v2 name 6, r) (calls (events (run_example_1 name) w)).
Proof.
  pose (Q := fun (_ : outcome Z) (_ : world _) (t : list event) =>
    exists r, In (sqlite3_open_v2 name 6, r) (calls t)).
  run_leaves Q.
  all: read_log.
  all: eexists; right; right; left; reflexivity.
Qed.

(** C3.  With [--example-id 257] the identifier stored in the [uint8_t] is
    1: the program runs Example 1 on the in-memory database, opening a
    connection, and ends as Example 1 ends. *)
Theorem example_id_257_runs_example_1 (w : world _) :
  to_uint8 (atoi "257") = 1%Z /\
  result (main (CmdLine [OptRet "i" "257"] [])) w =
    result (run_example_1 ":memory:") w /\
  events (main (CmdLine [OptRet "i" "257"] [])) w =
    [ Stdout ("parsing arguments..." +:+ endl);
      Stdout ("Using in-memory database" +:+ endl);
      Stdout ("Running example 1..." +:+ endl) ]
    ++ events (run_example_1 ":memory:") w /\
  exists r,
    In (sqlite3_open_v2 ":memory:" 6, r)
       (calls (events (main (CmdLine [OptRet "i" "257"] [])) w)).
Proof.
  assert (forall A (m : M _ A) (w0 : world _),
            m w0 = (result m w0, final m w0, events m w0)) as Hrun.
  { intros A m w0. unfold result, final, events.
    destruct (m w0) as [[o w1] t]. reflexivity. }
  assert (main (CmdLine [OptRet "i" "257"] []) w =
          (result (run_example_1 ":memory:") w,
           final (run_example_1 ":memory:") w,
           [ Stdout ("parsing arguments..." +:+ endl);
             Stdout ("Using in-memory database" +:+ endl);
             Stdout ("Running example 1..." +:+ endl) ]
           ++ events (run_example_1 ":memory:") w)) as Hmain.
  { unfold main, parse_args, mbind, mret, M_bind, M_ret, cout.
    cbn -[run_example_1 result final events].
    change (to_uint8 (atoi "257")) with 1%Z. cbn [Z.eqb Pos.eqb].
    rewrite (Hrun _ (run_example_1 ":memory:") w). reflexivity. }
  split; [reflexivity |].
  unfold result at 1, events at 1, events at 2. rewrite Hmain. cbn [fst snd].
  split; [reflexivity |]. split; [reflexivity |].
  destruct (run_example_1_opens w ":memory:") as [r Hr].
  exists r. unfold calls in *. rewrite pick_app. apply in_or_app. now right.
Qed.

(** ** Further properties of the runners *)

(** *** More about the logs of the two loops *)

Lemma accepted_true r : rc r = SQLITE_OK -> accepted r = true.
Proof. unfold accepted. intros ->. reflexivity. Qed.

Lemma accepted_false r : rc r <> SQLITE_OK -> accepted r = false.
Proof. unfold accepted. intros Hr. now apply Z.eqb_neq. Qed.

Lemma has_row_true r : rc r = SQLITE_ROW -> has_row r = true.
Proof. unfold has_row. intros ->. reflexivity. Qed.

Lemma has_row_false r : rc r <> SQLITE_ROW -> has_row r = false.
Proof. unfold has_row. intros Hr. now apply Z.eqb_neq. Qed.

Lemma inserted_all_silent db cache tbl places t :
  inserted db cache tbl places (Normal None) t ->
  stderr t = [] /\ closes t = [].
Proof.
  remember (Normal None) as o eqn:Ho. induction 1; read_log; try discriminate; auto.
Qed.

Lemma inserted_never_compiles db cache tbl places o t :
  inserted db cache tbl places o t -> finalized t = [] /\ columns t = [].
Proof. induction 1; read_log; auto. Qed.

Lemma inserted_in_order db cache tbl places o t :
  inserted db cache tbl places o t ->
  exists rest, map (insert_sql tbl) places = map fst (execs t) ++ rest.
Proof.
  induction 1; read_log.
  - now exists [].
  - destruct IHinserted as [rest Hrest]. exists rest. cbn. now rewrite Hrest.
  - exists (map (insert_sql tbl) places). reflexivity.
Qed.

Lemma queried_all_silent db cache tbl places t :
  queried db cache tbl places (Normal None) t ->
  stderr t = [] /\ closes t = [].
Proof.
  remember (Normal None) as o eqn:Ho. induction 1; read_log; try discriminate; auto.
Qed.

Lemma queried_in_order db cache tbl places o t :
  queried db cache tbl places o t ->
  exists rest, map (within_sql tbl) places = map fst (prepares t) ++ rest.
Proof.
  induction 1; read_log.
  - now exists [].
  - destruct IHqueried as [rest Hrest]. exists rest. cbn. now rewrite Hrest.
  - destruct IHqueried as [rest Hrest]. exists rest. cbn. now rewrite Hrest.
  - destruct IHqueried as [rest Hrest]. exists rest. cbn. now rewrite Hrest.
  - exists (map (within_sql tbl) places). reflexivity.
Qed.

Lemma queried_failed_last db cache tbl places v t :
  queried db cache tbl places (Normal (Some v)) t ->
  exists pre q,
    prepares t = pre ++ [q] /\
    Forall (fun q => rc q.2 = SQLITE_OK) pre /\ rc q.2 <> SQLITE_OK.
Proof.
  remember (Normal (Some v)) as o eqn:Ho. induction 1; read_log; try discriminate.
  - destruct (IHqueried Ho) as (pre & q & Hpre & Hok & Hq).
    exists ((within_sql tbl place, p) :: pre), q. rewrite Hpre. repeat split; auto.
  - destruct (IHqueried Ho) as (pre & q & Hpre & Hok & Hq).
    exists ((within_sql tbl place, p) :: pre), q. rewrite Hpre. repeat split; auto.
  - destruct (IHqueried Ho) as (pre & q & Hpre & Hok & Hq).
    exists ((within_sql tbl place, p) :: pre), q. rewrite Hpre. repeat split; auto.
  - exists [], (within_sql tbl place, p). repeat split; auto.
Qed.

Lemma queried_uses db cache tbl places o t :
  queried db cache tbl places o t ->
  finalized t = map (fun q => ptr q.2) (List.filter (fun q => accepted q.2) (prepares t)) /\
  map fst (stepped t) =
    map (fun q => ptr q.2) (List.filter (fun q => accepted q.2) (prepares t)) /\
  uses t = flat_map query_uses (stepped t).
Proof.
  induction 1; read_log.
  - auto.
  - destruct IHqueried as (Hf & Hs & Hu).
    cbn [List.filter snd]. rewrite (accepted_true _ H0).
    cbn [map fst snd flat_map]. unfold query_uses at 1. cbn [fst snd]. rewrite (has_row_true _ H1).
    cbn [app]. rewrite Hf, Hs, Hu. auto.
  - destruct IHqueried as (Hf & Hs & Hu).
    cbn [List.filter snd]. rewrite (accepted_true _ H0).
    cbn [map fst snd flat_map]. unfold query_uses at 1. cbn [fst snd]. rewrite (has_row_true _ H1).
    cbn [app]. rewrite Hf, Hs, Hu. auto.
  - destruct IHqueried as (Hf & Hs & Hu).
    cbn [List.filter snd]. rewrite (accepted_true _ H0).
    cbn [map fst snd flat_map]. unfold query_uses at 1. cbn [fst snd]. rewrite (has_row_false _ H1).
    cbn [app]. rewrite Hf, Hs, Hu. auto.
  - cbn [List.filter snd]. rewrite (accepted_false _ H0). auto.
Qed.

(** *** Failure to open *)

(** X1.  When [sqlite3_open_v2] reports a non-OK status, either runner
    prints the engine's message, closes the handle it was given and returns
    1; it allocates no cache, compiles and executes no statement, and does
    not shut the extension down. *)
Theorem failed_open_runs_no_sql
    (x : example) (w : world _) (name : string) (o : reply) :
  head (opens (events (run_example x name) w)) = Some o ->
  rc o <> SQLITE_OK ->
  result (run_example x name) w = Normal 1%Z /\
  lifecycle (events (run_example x name) w) = [Open (ptr o); Close (ptr o)] /\
  execs (events (run_example x name) w) = [] /\
  prepares (events (run_example x name) w) = [] /\
  (exists m,
     stderr (events (run_example x name) w) =
       ["Error opening database: " +:+ txt m +:+ endl]).
Proof.
  pose (Q := fun (r : outcome Z) (_ : world _) (t : list event) =>
    head (opens t) = Some o ->
    rc o <> SQLITE_OK ->
    r = Normal 1%Z /\
    lifecycle t = [Open (ptr o); Close (ptr o)] /\
    execs t = [] /\
    prepares t = [] /\
    (exists m, stderr t = ["Error opening database: " +:+ txt m +:+ endl])).
  run_cases x Q.
  all: intros Ho Hrc'.
  all: forget_loops ltac:(fun Ht => idtac) ltac:(fun Ht => idtac).
  all: unfold opens in Ho; cbn [app pick open_of head] in Ho.
  all: injection Ho as <-; try contradiction.
  all: read_log.
  all: repeat split; eauto.
Qed.

(** *** What reaches standard error *)

(** X2.  A runner that does not return 0 has written to standard error:
    no failure is silent. *)
Theorem failures_are_reported (x : example) (w : world _) (name : string) :
  result (run_example x name) w <> Normal 0%Z ->
  stderr (events (run_example x name) w) <> [].
Proof.
  pose (Q := fun (r : outcome Z) (_ : world _) (t : list event) =>
    r <> Normal 0%Z -> stderr t <> []).
  run_cases x Q.
  all: intros Hr.
  all: try (destruct Hr; reflexivity).
  all: forget_loops
         ltac:(fun Ht =>
                 try (destruct (inserted_failed_execs _ _ _ _ _ _ Ht)
                        as (? & ? & _ & _ & _ & Hmsg)))
         ltac:(fun Ht =>
                 try (destruct (queried_failed_message _ _ _ _ _ _ Ht) as [? Hmsg])).
  all: read_log.
  all: intros Hnil.
  all: repeat match goal with
       | Hn : _ ++ _ = [] |- _ => apply app_eq_nil in Hn; destruct Hn
       end.
  all: try match goal with
       | Hin : In _ (pick stderr_of ?t), Hn : pick stderr_of ?t = [] |- _ =>
           rewrite Hn in Hin; destruct Hin
       end.
  all: match goal with Hn : _ :: _ = [] |- _ => discriminate Hn end.
Qed.

(** X3.  A runner that returns 0 called [sqlite3_close] once.  When the
    close succeeded nothing was written to standard error; when it failed,
    the only line there is the engine's message for it, and the cache was
    released and the extension shut down all the same. *)
Theorem close_failure_is_tolerated (x : example) (w : world _) (name : string) :
  result (run_example x name) w = Normal 0%Z ->
  exists c,
    closes (events (run_example x name) w) = [c] /\
    ((rc c = SQLITE_OK /\ stderr (events (run_example x name) w) = [])
     \/
     (rc c <> SQLITE_OK /\
      exists m,
        stderr (events (run_example x name) w) =
          ["Error closing database: " +:+ txt m +:+ endl])) /\
    exists db cache,
      lifecycle (events (run_example x name) w) =
        [Open db; Alloc cache; Attach db cache; Close db; Cleanup cache; Shutdown].
Proof.
  pose (Q := fun (r : outcome Z) (_ : world _) (t : list event) =>
    r = Normal 0%Z ->
    exists c,
      closes t = [c] /\
      ((rc c = SQLITE_OK /\ stderr t = [])
       \/
       (rc c <> SQLITE_OK /\
        exists m, stderr t = ["Error closing database: " +:+ txt m +:+ endl])) /\
      exists db cache,
        lifecycle t =
          [Open db; Alloc cache; Attach db cache; Close db; Cleanup cache; Shutdown]).
  run_cases x Q.
  all: intros Hv; try discriminate Hv.
  all: forget_loops
         ltac:(fun Ht =>
                 pose proof (inserted_lifecycle _ _ _ _ _ _ Ht);
                 destruct (inserted_all_silent _ _ _ _ _ Ht))
         ltac:(fun Ht =>
                 pose proof (queried_lifecycle _ _ _ _ _ _ Ht);
                 destruct (queried_all_silent _ _ _ _ _ Ht)).
  all: read_log; use_picks.
  all: eexists; split; [reflexivity |]; split; [| eauto].
  all: first [ left; split; [assumption | reflexivity]
             | right; split; [assumption | eexists; reflexivity] ].
Qed.

(** *** The bootstrap step, when the table is not found *)

(** X4.  When the step of the existence check returns anything but a row,
    an error status included, the runner announces the initialization and
    the first statement it executes is [InitSpatialMetaData]. *)
Theorem bootstrap_initializes_when_no_row
    (x : example) (w : world _) (name : string) (r : reply) :
  head (steps (events (run_example x name) w)) = Some r ->
  rc r <> SQLITE_ROW ->
  In ("Initializing Spatialite..." +:+ endl)
     (stdout (events (run_example x name) w)) /\
  exists e, head (execs (events (run_example x name) w)) = Some (init_sql, e).
Proof.
  pose (Q := fun (_ : outcome Z) (_ : world _) (t : list event) =>
    head (steps t) = Some r ->
    rc r <> SQLITE_ROW ->
    In ("Initializing Spatialite..." +:+ endl) (stdout t) /\
    exists e, head (execs t) = Some (init_sql, e)).
  run_cases x Q.
  all: intros Hs Hrow.
  all: forget_loops ltac:(fun Ht => idtac) ltac:(fun Ht => idtac).
  all: unfold steps in Hs; cbn [app pick step_of head] in Hs; try discriminate Hs.
  all: injection Hs as <-; try contradiction.
  all: read_log.
  all: split; [| eexists; reflexivity].
  all: repeat first [ left; reflexivity | right ].
Qed.

(** *** Statements are finalized *)

(** X5.  In every run of either runner, the statements handed to
    [sqlite3_finalize] are exactly the statements [sqlite3_prepare_v2]
    compiled successfully, in the same order: none is leaked, none is
    finalized twice, and a statement that failed to compile is not
    finalized. *)
Theorem compiled_statements_are_finalized
    (x : example) (w : world _) (name : string) :
  finalized (events (run_example x name) w) =
    map (fun q => ptr q.2)
        (List.filter (fun q => accepted q.2)
                     (prepares (events (run_example x name) w))).
Proof.
  pose (Q := fun (_ : outcome Z) (_ : world _) (t : list event) =>
    finalized t =
      map (fun q => ptr q.2) (List.filter (fun q => accepted q.2) (prepares t))).
  run_cases x Q.
  all: forget_loops
         ltac:(fun Ht =>
                 destruct (inserted_never_compiles _ _ _ _ _ _ Ht) as [? _];
                 destruct (inserted_quiet _ _ _ _ _ _ Ht) as (_ & ? & _))
         ltac:(fun Ht => destruct (queried_uses _ _ _ _ _ _ Ht) as (? & _ & _)).
  all: read_log; use_picks.
  all: rewrite ?List.filter_app, ?map_app.
  all: repeat first
       [ progress cbn [List.filter map snd app]
       | match goal with
         | Hrc : rc ?p = SQLITE_OK |- context [accepted ?p] =>
             rewrite (accepted_true _ Hrc)
         | Hrc : rc ?p <> SQLITE_OK |- context [accepted ?p] =>
             rewrite (accepted_false _ Hrc)
         end ].
  all: rewrite ?app_nil_r.
  all: first [reflexivity | congruence].
Qed.

(** *** The order of the statements *)

(** Every reply of a list built from conses and appends is [SQLITE_OK]. *)
Ltac all_accepted :=
  repeat first
    [ apply Forall_nil_2
    | assumption
    | apply Forall_cons; split; [assumption |]
    | apply Forall_app; split ].



(** The log of statements splits into accepted ones and a rejected last
    one, the split being proposed by [propose]. *)
Ltac rejected_last propose :=
  propose;
  split; [reflexivity |];
  split; [solve [all_accepted] |];
  right; eexists; split; [reflexivity |]; split; [assumption | reflexivity].

(** X6.  Whatever the engine replies, the statements Example 1 executes
    are an initial part of its fixed sequence (the initialization when the
    metadata is missing, then table, geometry column, BEGIN, the INSERTs in
    list order, COMMIT); the engine accepted all of them except possibly the
    last one executed, and a rejected statement makes the runner return 1. *)
Theorem example_1_statements_in_order (w : world _) (name : string) :
  (exists pre rest,
     (pre = [] \/ pre = [init_sql]) /\
     pre ++ [create_sql "points"; geometry_sql "points"; begin_sql]
         ++ map (insert_sql "points") places_1 ++ [commit_sql] =
       map fst (execs (events (run_example_1 name) w)) ++ rest) /\
  (exists good bad,
     execs (events (run_example_1 name) w) = good ++ bad /\
     Forall (fun q => rc q.2 = SQLITE_OK) good /\
     (bad = [] \/
      exists q, bad = [q] /\ rc q.2 <> SQLITE_OK /\
                result (run_example_1 name) w = Normal 1%Z)).
Proof.
  pose (Q := fun (o : outcome Z) (_ : world _) (t : list event) =>
    (exists pre rest,
       (pre = [] \/ pre = [init_sql]) /\
       pre ++ [create_sql "points"; geometry_sql "points"; begin_sql]
           ++ map (insert_sql "points") places_1 ++ [commit_sql] =
         map fst (execs t) ++ rest) /\
    (exists good bad,
       execs t = good ++ bad /\
       Forall (fun q => rc q.2 = SQLITE_OK) good /\
       (bad = [] \/
        exists q, bad = [q] /\ rc q.2 <> SQLITE_OK /\ o = Normal 1%Z))).
  run_leaves Q.
  all: forget_loops
         ltac:(fun Ht =>
                 first [ destruct (inserted_all_execs _ _ _ _ _ Ht) as [Hsql Hok]
                       | destruct (inserted_in_order _ _ _ _ _ _ Ht) as [rest0 Hrest];
                         destruct (inserted_failed_execs _ _ _ _ _ _ Ht)
                           as (pre0 & q0 & Hpre & Hok & Hq & _) ])
         ltac:(fun Ht => idtac).
  all: read_log.
  all: split.
  (* the order *)
  all: try match goal with
       | |- exists _ _, _ /\ _ = map fst ?l ++ _ =>
           first
             [ exists []; eexists; split; [now left |];
               rewrite ?Hrest; cbn [map fst app]; rewrite ?map_app, ?Hsql;
               rewrite <- ?app_assoc; cbn [map fst app]; reflexivity
             | exists [init_sql]; eexists; split; [now right |];
               rewrite ?Hrest; cbn [map fst app]; rewrite ?map_app, ?Hsql;
               rewrite <- ?app_assoc; cbn [map fst app]; reflexivity ]
       end.
  (* all accepted but the last *)
  all: first
    [ (* nothing was rejected *)
      eexists _, []; split; [symmetry; apply app_nil_r |];
      split; [solve [all_accepted] | now left]
    | (* a statement outside the loop was rejected *)
      rejected_last ltac:(eexists [], [_])
    | rejected_last ltac:(eexists [_], [_])
    | rejected_last ltac:(eexists [_; _], [_])
    | rejected_last ltac:(eexists [_; _; _], [_])
    | rejected_last ltac:(eexists [_; _; _; _], [_])
    | (* the COMMIT was rejected *)
      rewrite ?app_comm_cons; rejected_last ltac:(eexists _, [_])
    | (* an INSERT was rejected *)
      rewrite Hpre, ?app_comm_cons; rejected_last ltac:(eexists _, [q0]) ].
Qed.

Ltac failed_last propose :=
  propose;
  split; [reflexivity |];
  split; [solve [all_accepted] |];
  right; eexists; split; [reflexivity | assumption].

(** X7.  Whatever the engine replies, the statements Example 2 compiles are
    an initial part of the existence check followed by the containment
    queries in list order, and all of them compiled except possibly the
    last.  The statements stepped are the statements that compiled, each
    one once and in that order.  The existence check is stepped and
    finalized; each query is stepped, its first column is read when, and
    only when, the step returned a row, and it is finalized: every call is
    made on the handle the compilation returned. *)
Theorem example_2_queries_in_order (w : world _) (name : string) :
  (exists rest,
     check_sql :: map (within_sql "location") places_2 =
       map fst (prepares (events (run_example_2 name) w)) ++ rest) /\
  (exists good bad,
     prepares (events (run_example_2 name) w) = good ++ bad /\
     Forall (fun q => rc q.2 = SQLITE_OK) good /\
     (bad = [] \/ exists q, bad = [q] /\ rc q.2 <> SQLITE_OK)) /\
  map fst (stepped (events (run_example_2 name) w)) =
    map (fun q => ptr q.2)
        (List.filter (fun q => accepted q.2)
                     (prepares (events (run_example_2 name) w))) /\
  uses (events (run_example_2 name) w) =
    match stepped (events (run_example_2 name) w) with
    | [] => []
    | check :: queries =>
        [Step check.1 check.2; Finalize check.1] ++ flat_map query_uses queries
    end.
Proof.
  pose (Q := fun (_ : outcome Z) (_ : world _) (t : list event) =>
    (exists rest,
       check_sql :: map (within_sql "location") places_2 =
         map fst (prepares t) ++ rest) /\
    (exists good bad,
       prepares t = good ++ bad /\
       Forall (fun q => rc q.2 = SQLITE_OK) good /\
       (bad = [] \/ exists q, bad = [q] /\ rc q.2 <> SQLITE_OK)) /\
    map fst (stepped t) =
      map (fun q => ptr q.2) (List.filter (fun q => accepted q.2) (prepares t)) /\
    uses t =
      match stepped t with
      | [] => []
      | check :: queries =>
          [Step check.1 check.2; Finalize check.1] ++ flat_map query_uses queries
      end).
  run_leaves Q.
  all: forget_loops
         ltac:(fun Ht => idtac)
         ltac:(fun Ht =>
                 destruct (queried_in_order _ _ _ _ _ _ Ht) as [rest0 Hrest];
                 destruct (queried_uses _ _ _ _ _ _ Ht) as (_ & Hsteps & Huses);
                 first [ destruct (queried_all_prepared _ _ _ _ _ Ht) as [Hok _]
                       | destruct (queried_failed_last _ _ _ _ _ _ Ht)
                           as (pre0 & q0 & Hpre & Hok & Hq) ]).
  all: read_log; rewrite ?app_nil_r.
  all: split; [| split; [| split]].
  (* the order *)
  all: try match goal with
       | |- exists _, _ = map fst _ ++ _ =>
           eexists; rewrite ?Hrest; cbn [map fst app]; reflexivity
       end.
  (* all compiled but the last *)
  all: try match goal with
       | |- exists _ _, _ = _ ++ _ /\ _ =>
           first
             [ eexists _, []; split; [symmetry; apply app_nil_r |];
               split; [solve [all_accepted] | now left]
             | failed_last ltac:(eexists [], [_])
             | rewrite Hpre, ?app_comm_cons; failed_last ltac:(eexists _, [q0]) ]
       end.
  (* the handles *)
  all: cbn [List.filter snd fst map app].
  all: repeat match goal with
       | Hrc : rc ?p = SQLITE_OK |- context [accepted ?p] =>
           rewrite (accepted_true _ Hrc)
       | Hrc : rc ?p <> SQLITE_OK |- context [accepted ?p] =>
           rewrite (accepted_false _ Hrc)
       end.
  all: cbn [map snd fst app]; rewrite ?Hsteps, ?Huses; reflexivity.
Qed.

(** *** The command line *)

Lemma parse_opts_help rets v (w : world _) :
  In "h"%char (map opt_c rets) ->
  wp (parse_opts rets v)
     (fun o w' t => o = Exited 0 /\ w' = w /\ t = map Stdout usage) w.
Proof.
  revert v. induction rets as [| r rets IH]; intros v Hin; [destruct Hin |].
  cbn [parse_opts].
  destruct (Ascii.eqb_spec (opt_c r) "i") as [Hi | _].
  { apply IH. destruct Hin as [Hq | Hin]; [| exact Hin].
    rewrite Hi in Hq. discriminate Hq. }
  destruct (Ascii.eqb_spec (opt_c r) "n") as [Hn | _].
  { apply IH. destruct Hin as [Hq | Hin]; [| exact Hin].
    rewrite Hn in Hq. discriminate Hq. }
  destruct (Ascii.eqb_spec (opt_c r) "h") as [_ | Hh]; cbn [orb].
  { unfold show_usage. repeat (wp_step; cbn beta iota). auto. }
  destruct (Ascii.eqb_spec (opt_c r) "?") as [_ | _].
  { unfold show_usage. repeat (wp_step; cbn beta iota). auto. }
  apply IH. destruct Hin as [Hq' | Hin]; [| exact Hin].
  cbn in Hq'. congruence.
Qed.

(** X8.  When [--help] is among the options, wherever it stands and
    whatever else the command line holds (an identifier that is no
    example, operands), the program prints the usage message, calls nothing
    of the engine and exits with status 0. *)
Theorem help_prints_usage_and_exits_0 (w : world _) (cl : cmdline) :
  In "h"%char (map opt_c (opts cl)) ->
  result (main cl) w = Exited 0 /\
  events (main cl) w = Stdout ("parsing arguments..." +:+ endl) :: map Stdout usage /\
  final (main cl) w = w.
Proof.
  intros Hin.
  apply (wp_elim (main cl) w
    (fun o w' t => o = Exited 0 /\
       t = Stdout ("parsing arguments..." +:+ endl) :: map Stdout usage /\ w' = w)).
  unfold main, parse_args. do 4 (wp_step; cbn beta iota).
  eapply wp_mono; [apply (parse_opts_help _ _ _ Hin) |]. cbn beta.
  intros o w' t (-> & -> & ->). auto.
Qed.

(** What [parse_opts] leaves in the variables of [main] when no return of
    [getopt_long] asks for the usage message: the last [-i] and the last
    [-n] win, and the database stays in memory unless there is a [-n]. *)
Lemma parse_opts_scans rets v (w : world _) :
  Forall (fun r => asks_usage r = false) rets ->
  parse_opts rets v w =
    (Normal
       (Locals
          (in_memory_db v && negb (existsb (fun r => Ascii.eqb (opt_c r) "n") rets))
          (default (db_name v) (last_optarg "n" rets))
          (from_option (fun s => to_uint8 (atoi s)) (example_id v)
                       (last_optarg "i" rets))),
     w, []).
Proof.
  revert v. induction rets as [| r rets IH]; intros v Hall.
  - cbn. rewrite andb_true_r. now destruct v.
  - apply Forall_cons in Hall. destruct Hall as [Hr Hall].
    unfold asks_usage in Hr. cbn [parse_opts].
    unfold last_optarg in *. cbn [List.filter existsb].
    destruct (Ascii.eqb_spec (opt_c r) "i") as [Hi | Hi].
    + rewrite (IH _ Hall). clear IH. cbn [in_memory_db db_name example_id].
      rewrite Hi. cbn [Ascii.eqb Bool.eqb orb map]. rewrite last_cons.
      destruct (last (map optarg
                  (List.filter (fun r => Ascii.eqb (opt_c r) "i") rets)));
        reflexivity.
    + destruct (Ascii.eqb_spec (opt_c r) "n") as [Hn | Hn].
      * rewrite (IH _ Hall). clear IH. cbn [in_memory_db db_name example_id].
        cbn [orb negb map]. rewrite andb_false_r, last_cons.
        destruct (last (map optarg
                    (List.filter (fun r => Ascii.eqb (opt_c r) "n") rets)));
          reflexivity.
      * rewrite Hr. rewrite (IH _ Hall). reflexivity.
Qed.

(** X9.  When no option asks for the usage message and there is no
    operand, [parse_args] prints one line and returns: the example
    identifier is the last [--example-id] converted by [atoi], which stops
    at the bounds of [long] and keeps the low bits of an [int], and
    narrowed to a byte (0 without the option); the database name is the
    last [--db-name], and the database is in memory exactly when there is
    no [--db-name]. *)
Theorem parse_args_keeps_the_last_values (w : world _) (cl : cmdline) :
  Forall (fun r => asks_usage r = false) (opts cl) ->
  operands cl = [] ->
  result (parse_args cl (Locals true "" 0)) w =
    Normal
      (Locals
         (negb (existsb (fun r => Ascii.eqb (opt_c r) "n") (opts cl)))
         (default "" (last_optarg "n" (opts cl)))
         (from_option (fun s => to_uint8 (atoi s)) 0%Z (last_optarg "i" (opts cl)))) /\
  events (parse_args cl (Locals true "" 0)) w =
    [Stdout ("parsing arguments..." +:+ endl)] /\
  final (parse_args cl (Locals true "" 0)) w = w.
Proof.
  intros Hall Hops.
  unfold result, events, final, parse_args, mbind, mret, M_bind, M_ret, cout.
  rewrite (parse_opts_scans _ _ _ Hall), Hops. cbn. auto.
Qed.

(** X10.  When no option asks for the usage message and an operand is
    left, the program names the first operand on standard error and exits
    with status 1 without calling the engine. *)
Theorem stray_operand_is_rejected
    (w : world _) (cl : cmdline) (arg : string) (more : list string) :
  Forall (fun r => asks_usage r = false) (opts cl) ->
  operands cl = arg :: more ->
  result (main cl) w = Exited 1 /\
  events (main cl) w =
    [ Stdout ("parsing arguments..." +:+ endl);
      Stderr ("Unexpected argument: " +:+ arg +:+ endl) ] /\
  final (main cl) w = w.
Proof.
  intros Hall Hops.
  unfold result, events, final, main, parse_args, mbind, mret, M_bind, M_ret,
    cout, cerr, exit.
  rewrite (parse_opts_scans _ _ _ Hall), Hops. cbn. auto.
Qed.

Lemma parse_args_touches_nothing (cl : cmdline) (v0 : locals) (w : world _) :
  final (parse_args cl v0) w = w /\
  calls (events (parse_args cl v0) w) = [] /\
  setenvs (events (parse_args cl v0) w) = [] /\
  (forall v, result (parse_args cl v0) w = Normal v ->
             stderr (events (parse_args cl v0) w) = []).
Proof.
  apply (wp_elim (parse_args cl v0) w
    (fun o w' t => w' = w /\ calls t = [] /\ setenvs t = [] /\
       (forall v, o = Normal v -> stderr t = []))).
  unfold parse_args. do 3 (wp_step; cbn beta iota).
  eapply wp_mono; [apply parse_opts_quiet |]. cbn beta.
  intros o w' t (-> & Hc & Hs & He).
  destruct o as [v' | what | status].
  - destruct (operands cl); repeat (wp_step; cbn beta iota);
      read_log; rewrite Hc, Hs, He; repeat split; auto; discriminate.
  - read_log. rewrite Hc, Hs. repeat split; auto; discriminate.
  - read_log. rewrite Hc, Hs. repeat split; auto; discriminate.
Qed.

(** Opens [main] after an argument parsing that returned [v]. *)
Ltac after_parsing cl w v Hv :=
  let Hw := fresh "Hw" in
  let Hc := fresh "Hc" in
  let Hs := fresh "Hs" in
  let He := fresh "He" in
  destruct (parse_args_touches_nothing cl (Locals true "" 0) w) as (Hw & Hc & Hs & He);
  specialize (He v Hv);
  unfold result, final, events in *;
  unfold main, mbind, mret, M_bind, M_ret, cout, cerr;
  destruct (parse_args cl (Locals true "" 0) w) as [[? ?] ?];
  cbn [fst snd] in *; subst.

(** X11.  When the arguments are parsed and the identifier left in the
    [uint8_t] is neither 1 nor 2, the program reports it on standard error
    and returns 1; it calls nothing of the engine and sets no environment
    variable. *)
Theorem unknown_example_is_refused (w : world _) (cl : cmdline) (v : locals) :
  result (parse_args cl (Locals true "" 0)) w = Normal v ->
  example_id v <> 1%Z ->
  example_id v <> 2%Z ->
  result (main cl) w = Normal 1%Z /\
  final (main cl) w = w /\
  calls (events (main cl) w) = [] /\
  setenvs (events (main cl) w) = [] /\
  stderr (events (main cl) w) =
    ["Unknown example ID: " +:+ show_uint8 (example_id v) +:+ endl].
Proof.
  intros Hv H1 H2.
  after_parsing cl w v Hv.
  destruct (in_memory_db v); cbn [example_id];
    destruct (Z.eqb_spec (example_id v) 1); try contradiction;
    destruct (Z.eqb_spec (example_id v) 2); try contradiction;
    cbn [fst snd]; read_log; rewrite Hc, Hs, He; auto.
Qed.

(** X12.  When the arguments are parsed and the identifier left in the
    [uint8_t] is that of an example, [main] ends as that runner ends on the
    database named by the last [--db-name], or on ":memory:" without one;
    in front of the runner's log it adds lines on standard output only. *)
Theorem selected_example_runs
    (w : world _) (cl : cmdline) (v : locals) (x : example) :
  result (parse_args cl (Locals true "" 0)) w = Normal v ->
  example_id v = number x ->
  result (main cl) w = result (run_example x (target v)) w /\
  final (main cl) w = final (run_example x (target v)) w /\
  exists pre,
    events (main cl) w = pre ++ events (run_example x (target v)) w /\
    calls pre = [] /\ stderr pre = [] /\ setenvs pre = [].
Proof.
  intros Hv Hx.
  after_parsing cl w v Hv.
  unfold target.
  destruct x; cbn [number run_example] in *;
    destruct (in_memory_db v); cbn [example_id db_name]; rewrite Hx;
    cbn [Z.eqb Pos.eqb];
    match goal with
    | |- context [?run ?name w] =>
        first [ unify run run_example_1 | unify run run_example_2 ];
        destruct (run name w) as [[? ?] ?]
    end;
    cbn [fst snd];
    (split; [reflexivity |]; split; [reflexivity |]);
    rewrite ?app_nil_r; cbn [app];
    first [ eexists (_ ++ [_; _]); split; [rewrite <- app_assoc; reflexivity |]
          | eexists (_ ++ [_]); split; [rewrite <- app_assoc; reflexivity |] ];
    read_log; rewrite Hc, Hs, He; auto.
Qed.

(** *** Messages are freed, points are reported *)

Lemma inserted_frees db cache tbl places o t :
  inserted db cache tbl places o t ->
  freed t = map (fun q => txt q.2)
                (List.filter (fun q => negb (accepted q.2)) (execs t)).
Proof.
  induction 1; read_log.
  - reflexivity.
  - cbn [List.filter snd]. rewrite (accepted_true _ H0). exact IHinserted.
  - cbn [List.filter snd]. rewrite (accepted_false _ H0). reflexivity.
Qed.

Lemma queried_frees db cache tbl places o t :
  queried db cache tbl places o t -> freed t = [].
Proof. induction 1; read_log; auto. Qed.

Lemma queried_written db cache tbl places t :
  queried db cache tbl places (Normal None) t ->
  length (answers (steps t) (columns t)) = length places /\
  forall rest,
    written (t ++ rest) =
      reported places (answers (steps t) (columns t)) (written rest).
Proof.
  remember (Normal None) as o eqn:Ho. induction 1; read_log; try discriminate.
  - split; [reflexivity |]. intros rest. reflexivity.
  - destruct (IHqueried Ho) as [Hlen Hout].
    cbn [answers]. rewrite (has_row_true _ H1).
    destruct (Z.eqb_spec (ptr c) 0) as [E | _]; [contradiction |].
    split; [cbn [length]; now rewrite Hlen |].
    intros rest. cbn [written reported]. now rewrite Hout.
  - destruct (IHqueried Ho) as [Hlen Hout].
    cbn [answers]. rewrite (has_row_true _ H1), H2. cbn [Z.eqb].
    split; [cbn [length]; now rewrite Hlen |].
    intros rest. reflexivity.
  - destruct (IHqueried Ho) as [Hlen Hout].
    cbn [answers]. rewrite (has_row_false _ H1).
    split; [cbn [length]; now rewrite Hlen |].
    intros rest. cbn [written reported]. now rewrite Hout.
Qed.

(** X15.  In every run of either runner, [sqlite3_free] is called exactly
    on the error messages of the statements [sqlite3_exec] saw rejected, in
    order: a message is freed once, and nothing is freed when every
    statement is accepted. *)
Theorem rejected_messages_are_freed (x : example) (w : world _) (name : string) :
  freed (events (run_example x name) w) =
    map (fun q => txt q.2)
        (List.filter (fun q => negb (accepted q.2))
                     (execs (events (run_example x name) w))).
Proof.
  pose (Q := fun (_ : outcome Z) (_ : world _) (t : list event) =>
    freed t =
      map (fun q => txt q.2) (List.filter (fun q => negb (accepted q.2)) (execs t))).
  run_cases x Q.
  all: forget_loops
         ltac:(fun Ht => pose proof (inserted_frees _ _ _ _ _ _ Ht))
         ltac:(fun Ht =>
                 pose proof (queried_frees _ _ _ _ _ _ Ht);
                 destruct (queried_quiet _ _ _ _ _ _ Ht) as [_ ?]).
  all: unfold freed in *; read_log; use_picks.
  all: repeat first
       [ progress cbn [List.filter map snd app negb]
       | rewrite List.filter_app
       | rewrite map_app
       | match goal with
         | Hrc : rc ?p = SQLITE_OK |- context [accepted ?p] =>
             rewrite (accepted_true _ Hrc)
         | Hrc : rc ?p <> SQLITE_OK |- context [accepted ?p] =>
             rewrite (accepted_false _ Hrc)
         end ].
  all: rewrite ?app_nil_r.
  all: first [reflexivity | congruence].
Qed.

(** X16.  A run of Example 2 that returns 0 received an answer for each
    of the five points, and what reaches standard output is: the opening
    line, the announcement of the initialization when it took place, the
    three lines about the import, then a line for each point in list order
    with the region the engine returned or "Not found", and the closing
    line.  When the engine returns a null name for a point, the line of
    that point stops after the arrow and nothing more is written, neither
    the lines of the remaining points nor the closing line, although the
    runner goes on and returns 0. *)
Theorem example_2_reports_every_point (w : world _) (name : string) :
  result (run_example_2 name) w = Normal 0%Z ->
  length (answers (List.tl (steps (events (run_example_2 name) w)))
                  (columns (events (run_example_2 name) w))) = 5%nat /\
  exists init,
    (init = [] \/ init = ["Initializing Spatialite..." +:+ endl]) /\
    written (events (run_example_2 name) w) =
      ["Opening database: " +:+ name +:+ endl] ++ init ++
      [ "Importing shapefile: ../shp/BR_UF_2022" +:+ endl;
        "SELECT ImportSHP('../shp/BR_UF_2022', 'location', 'UTF-8')" +:+ endl;
        "Checking what are the correspoding State names for the following points:"
          +:+ endl ] ++
      reported places_2
        (answers (List.tl (steps (events (run_example_2 name) w)))
                 (columns (events (run_example_2 name) w)))
        ["Example 2 Done." +:+ endl].
Proof.
  pose (Q := fun (o : outcome Z) (_ : world _) (t : list event) =>
    o = Normal 0%Z ->
    length (answers (List.tl (steps t)) (columns t)) = 5%nat /\
    exists init,
      (init = [] \/ init = ["Initializing Spatialite..." +:+ endl]) /\
      written t =
        ["Opening database: " +:+ name +:+ endl] ++ init ++
        [ "Importing shapefile: ../shp/BR_UF_2022" +:+ endl;
          "SELECT ImportSHP('../shp/BR_UF_2022', 'location', 'UTF-8')" +:+ endl;
          "Checking what are the correspoding State names for the following points:"
            +:+ endl ] ++
        reported places_2 (answers (List.tl (steps t)) (columns t))
          ["Example 2 Done." +:+ endl]).
  run_leaves Q.
  all: intros Hv; try discriminate Hv.
  all: forget_loops
         ltac:(fun Ht => idtac)
         ltac:(fun Ht =>
                 destruct (queried_written _ _ _ _ _ Ht) as [Hlen Hout]).
  all: read_log; rewrite ?app_nil_r; cbn [List.tl].
  all: split; [exact Hlen |].
  all: cbn [written app]; rewrite Hout; cbn [written].
  all: first [ exists []; split; [now left | reflexivity]
             | eexists [_]; split; [now right | reflexivity] ].
Qed.




(** X17.  Whatever the engine replies, Example 2 executes at most two
    statements through [sqlite3_exec], in this order: the initialization
    when the metadata is missing, then the import of the shapefile into
    table "location" with encoding UTF-8; the engine accepted all of them
    except possibly the last one executed, and a rejected statement makes
    the runner return 1. *)
Theorem example_2_statements_in_order (w : world _) (name : string) :
  (exists pre rest,
     (pre = [] \/ pre = [init_sql]) /\
     pre ++ ["SELECT ImportSHP('../shp/BR_UF_2022', 'location', 'UTF-8')"] =
       map fst (execs (events (run_example_2 name) w)) ++ rest) /\
  (exists good bad,
     execs (events (run_example_2 name) w) = good ++ bad /\
     Forall (fun q => rc q.2 = SQLITE_OK) good /\
     (bad = [] \/
      exists q, bad = [q] /\ rc q.2 <> SQLITE_OK /\
                result (run_example_2 name) w = Normal 1%Z)).
Proof.
  pose (Q := fun (o : outcome Z) (_ : world _) (t : list event) =>
    (exists pre rest,
       (pre = [] \/ pre = [init_sql]) /\
       pre ++ ["SELECT ImportSHP('../shp/BR_UF_2022', 'location', 'UTF-8')"] =
         map fst (execs t) ++ rest) /\
    (exists good bad,
       execs t = good ++ bad /\
       Forall (fun q => rc q.2 = SQLITE_OK) good /\
       (bad = [] \/
        exists q, bad = [q] /\ rc q.2 <> SQLITE_OK /\ o = Normal 1%Z))).
  run_leaves Q.
  all: forget_loops
         ltac:(fun Ht => idtac)
         ltac:(fun Ht => destruct (queried_quiet _ _ _ _ _ _ Ht) as [_ Hex]).
  all: read_log; use_picks; rewrite ?app_nil_r.
  all: split.
  all: try match goal with
       | |- exists _ _, _ /\ _ = map fst ?l ++ _ =>
           first
             [ exists []; eexists; split; [now left |];
               cbn [map fst app]; reflexivity
             | exists [init_sql]; eexists; split; [now right |];
               cbn [map fst app]; reflexivity ]
       end.
  all: first
    [ eexists _, []; split; [symmetry; apply app_nil_r |];
      split; [solve [all_accepted] | now left]
    | rejected_last ltac:(eexists [], [_])
    | rejected_last ltac:(eexists [_], [_]) ].
Qed.

End Proofs.

(** ** The theorems at work on the concrete engine *)

Lemma metadata_check_failure_skips_teardown_witness :
  let w := new_database fails_check in
  head (prepares (events (run_example Example1 "notes.txt") w)) =
    Some (check_sql, toy_error) /\
  rc toy_error <> SQLITE_OK /\
  result (run_example Example1 "notes.txt") w =
    Thrown "Error checking if spatial_ref_sys table exists" /\
  exit_code (result (run_example Example1 "notes.txt") w) = None /\
  (exists db cache,
     lifecycle (events (run_example Example1 "notes.txt") w) =
       [Open db; Alloc cache; Attach db cache]) /\
  (exists m,
     stderr (events (run_example Example1 "notes.txt") w) =
       ["Error checking if spatial_ref_sys table exists: " +:+ txt m +:+ endl]).
Proof.
  intros w.
  split; [vm_compute; reflexivity |].
  split; [vm_compute; lia |].
  apply (metadata_check_failure_skips_teardown Example1 w "notes.txt" toy_error).
  - vm_compute. reflexivity.
  - vm_compute. lia.
Defined.

(** The same failure seen from the command line: the process is aborted,
    it does not exit with status 1. *)
Example main_aborts_when_the_file_is_not_a_database :
  exit_code
    (result (main (CmdLine [OptRet "i" "1"; OptRet "n" "notes.txt"] []))
            (new_database fails_check)) = None /\
  lifecycle
    (events (main (CmdLine [OptRet "i" "1"; OptRet "n" "notes.txt"] []))
            (new_database fails_check)) =
    [Open 1001; Alloc 2002; Attach 1001 2002].
Proof. split; vm_compute; reflexivity. Qed.

(** C2, as stated, fails on the run of Example 1 that succeeds: the handle
    is closed before the cache is released, so the cache outlives it. *)
Lemma cache_outlives_handle_on_success :
  let t := events (run_example Example1 ":memory:") (new_database healthy) in
  result (run_example Example1 ":memory:") (new_database healthy) = Normal 0%Z /\
  allocated t /\
  lifecycle t =
    [Open 1001; Alloc 2002; Attach 1001 2002; Close 1001; Cleanup 2002; Shutdown] /\
  ~ matched_lifetimes t.
Proof.
  intros t. split; [vm_compute; reflexivity |].
  split; [exists 2002%Z; vm_compute; tauto |].
  split; [vm_compute; reflexivity |].
  intros [_ Hc]. vm_compute in Hc. discriminate Hc.
Qed.

Lemma returning_runs_release_handle_then_cache_witness :
  let w := new_database healthy in
  result (run_example Example2 ":memory:") w = Normal 0%Z /\
  allocated (events (run_example Example2 ":memory:") w) /\
  exists db cache,
    lifecycle (events (run_example Example2 ":memory:") w) =
      [Open db; Alloc cache; Attach db cache; Close db; Cleanup cache; Shutdown].
Proof.
  intros w.
  split; [vm_compute; reflexivity |].
  split; [exists 2002%Z; vm_compute; tauto |].
  apply (returning_runs_release_handle_then_cache Example2 w ":memory:" 0%Z).
  - vm_compute. reflexivity.
  - exists 2002%Z. vm_compute. tauto.
Defined.

Lemma bootstrap_skipped_when_metadata_exists_witness :
  let w := initialized_database healthy in
  head (steps (events (run_example Example2 "brazil.sqlite") w)) =
    Some (Reply SQLITE_ROW 0 "") /\
  (exists p,
     head (prepares (events (run_example Example2 "brazil.sqlite") w)) =
       Some (check_sql, p) /\
     rc p = SQLITE_OK) /\
  ~ In init_sql (map fst (execs (events (run_example Example2 "brazil.sqlite") w))) /\
  head (map fst (execs (events (run_example Example2 "brazil.sqlite") w))) =
    Some (first_statement Example2).
Proof.
  intros w.
  split; [vm_compute; reflexivity |].
  apply (bootstrap_skipped_when_metadata_exists Example2 w "brazil.sqlite"
           (Reply SQLITE_ROW 0 "")).
  - vm_compute. reflexivity.
  - reflexivity.
Defined.

(** The stand-in engine, with nothing broken, serves the layer it holds. *)
Lemma toy_serves_brazil :
  @serves (toy brazil healthy) (fun _ => True) (fun _ _ => True) (fun _ _ => True)
    [ ("POINT(-43.1729 -22.9068)", Some "Rio de Janeiro");
      ("POINT(-54.5854 -25.5165)", Some "Parana");
      ("POINT(-32.423786 -3.853808)", Some "Pernambuco");
      ("POINT(0 0)", None);
      ("POINT(-74.0060 40.7128)", None) ].
Proof.
  split; trivial.
  - intros filename flags s _. split; [reflexivity | exact I].
  - intros db [md prep pts pend] _. split; [reflexivity | exact I].
  - intros db [n wkt] a [md prep pts pend] _ Hin. cbn [snd] in Hin.
    repeat (destruct Hin as [Hin | Hin];
            [ apply pair_equal_spec in Hin; destruct Hin as [<- <-];
              vm_compute; repeat split; discriminate | ]).
    destruct Hin.
Qed.

Lemma example_2_reports_in_list_order_witness :
  let w := new_database healthy in
  result (run_example_2 ":memory:") w = Normal 0%Z /\
  map fst (prepares (events (run_example_2 ":memory:") w)) =
    check_sql :: map (within_sql "location") places_2 /\
  exists init,
    (init = [] \/ init = ["Initializing Spatialite..." +:+ endl]) /\
    written (events (run_example_2 ":memory:") w) =
      ["Opening database: " +:+ ":memory:" +:+ endl] ++ init ++
      [ "Importing shapefile: ../shp/BR_UF_2022" +:+ endl;
        "SELECT ImportSHP('../shp/BR_UF_2022', 'location', 'UTF-8')" +:+ endl;
        "Checking what are the correspoding State names for the following points:"
          +:+ endl;
        "Rio de Janeiro ---> " +:+ "Rio de Janeiro" +:+ endl;
        "Foz do Iguacu ---> " +:+ "Parana" +:+ endl;
        "Fernando de Noronha ---> " +:+ "Pernambuco" +:+ endl;
        "Null Island ---> Not found" +:+ endl;
        "New York ---> Not found" +:+ endl;
        "Example 2 Done." +:+ endl ].
Proof.
  intros w.
  apply (@example_2_reports_in_list_order (toy brazil healthy)
           (fun _ => True) (fun _ _ => True) (fun _ _ => True)
           w ":memory:" "Rio de Janeiro" "Parana" "Pernambuco").
  - exact toy_serves_brazil.
  - exact I.
Defined.

(** ** Example 1 and the rows of the table (C6) *)

(** Example 1 on the stand-in engine, from a database whose table holds
    [rows]: the three points are added after them. *)
Lemma example_1_adds_to_the_table (md : bool) (rows : list string) (name : string) :
  result (run_example_1 name) (database_with md rows) = Normal 0%Z /\
  points (eng (final (run_example_1 name) (database_with md rows))) =
    rows ++ [ "POINT(-43.1729 -22.9068)"; "POINT(-54.5854 -25.5165)";
              "POINT(-32.423786 -3.853808)" ] /\
  pending (eng (final (run_example_1 name) (database_with md rows))) = None.
Proof. destruct md; vm_compute; repeat split; reflexivity. Qed.

(** C6, as amended.  A run of Example 1 that returns 0 executed, within one
    transaction committed after the last of them, exactly three INSERT
    statements, one per place of the list and in list order, each storing
    the geometry parsed from the text of the point under SRID 4326 and
    nothing else: the name of a place goes to the progress line, not to the
    table.  The table is created only if it does not exist and nothing is
    deleted from it, so the three rows are added to the rows it held: on
    the stand-in engine a run that starts from the rows [rows] ends with
    [rows] followed by the three points, the transaction closed. *)
Theorem example_1_inserts_three_points_in_one_transaction :
  (forall (E : Engine) (w : world E) (name : string),
     result (run_example_1 name) w = Normal 0%Z ->
     (exists pre,
        (pre = [] \/ pre = ["SELECT InitSpatialMetaData(1);"]) /\
        map fst (execs (events (run_example_1 name) w)) =
          pre ++
          [ "CREATE TABLE IF NOT EXISTS points (id INTEGER PRIMARY KEY AUTOINCREMENT NOT NULL)";
            "SELECT AddGeometryColumn('points', 'geom', 4326, 'POINT', 'XY')";
            "BEGIN TRANSACTION;";
            "INSERT INTO points (geom) VALUES (GeomFromText('POINT(-43.1729 -22.9068)', 4326))";
            "INSERT INTO points (geom) VALUES (GeomFromText('POINT(-54.5854 -25.5165)', 4326))";
            "INSERT INTO points (geom) VALUES (GeomFromText('POINT(-32.423786 -3.853808)', 4326))";
            "COMMIT" ]) /\
     Forall (fun q => rc q.2 = SQLITE_OK) (execs (events (run_example_1 name) w)) /\
     (exists pre,
        written (events (run_example_1 name) w) =
          pre ++
          [ "Creating table: points" +:+ endl;
            "Adding geometry column to table: points" +:+ endl;
            "Adding some tourist places in Brazil..." +:+ endl;
            "Adding Rio de Janeiro: POINT(-43.1729 -22.9068)" +:+ endl;
            "Adding Foz do Iguacu: POINT(-54.5854 -25.5165)" +:+ endl;
            "Adding Fernando de Noronha: POINT(-32.423786 -3.853808)" +:+ endl;
            "Committing transaction..." +:+ endl;
            "Example 1 Done." +:+ endl ])) /\
  (forall (md : bool) (rows : list string) (name : string),
     result (run_example_1 name) (database_with md rows) = Normal 0%Z /\
     points (eng (final (run_example_1 name) (database_with md rows))) =
       rows ++ [ "POINT(-43.1729 -22.9068)"; "POINT(-54.5854 -25.5165)";
                 "POINT(-32.423786 -3.853808)" ] /\
     pending (eng (final (run_example_1 name) (database_with md rows))) = None).
Proof.
  split.
  - intros E w name Hv.
    destruct (@successful_example_1_statements E w name Hv) as [Hsql Hok].
    split; [exact Hsql |]. split; [exact Hok |].
    exact (@successful_example_1_output E w name Hv).
  - exact example_1_adds_to_the_table.
Qed.

(** C6, as stated, fails on a database where Example 1 already ran: the
    second run returns 0 like the first and leaves six rows in the table,
    not the three points alone. *)
Lemma second_run_leaves_six_rows :
  let first := run_example_1 "places.sqlite" (new_database healthy) in
  let second := run_example_1 "places.sqlite" first.1.2 in
  first.1.1 = Normal 0%Z /\
  points (eng first.1.2) =
    [ "POINT(-43.1729 -22.9068)"; "POINT(-54.5854 -25.5165)";
      "POINT(-32.423786 -3.853808)" ] /\
  second.1.1 = Normal 0%Z /\
  points (eng second.1.2) =
    [ "POINT(-43.1729 -22.9068)"; "POINT(-54.5854 -25.5165)";
      "POINT(-32.423786 -3.853808)";
      "POINT(-43.1729 -22.9068)"; "POINT(-54.5854 -25.5165)";
      "POINT(-32.423786 -3.853808)" ] /\
  points (eng second.1.2) <> map snd places_1.
Proof.
  intros first second.
  split; [vm_compute; reflexivity |].
  split; [vm_compute; reflexivity |].
  split; [vm_compute; reflexivity |].
  split; [vm_compute; reflexivity |].
  vm_compute. discriminate.
Qed.

Lemma example_1_inserts_three_points_in_one_transaction_witness :
  let w := new_database healthy in
  result (run_example_1 "places.sqlite") w = Normal 0%Z /\
  map fst (execs (events (run_example_1 "places.sqlite") w)) =
    [ "SELECT InitSpatialMetaData(1);";
      "CREATE TABLE IF NOT EXISTS points (id INTEGER PRIMARY KEY AUTOINCREMENT NOT NULL)";
      "SELECT AddGeometryColumn('points', 'geom', 4326, 'POINT', 'XY')";
      "BEGIN TRANSACTION;";
      "INSERT INTO points (geom) VALUES (GeomFromText('POINT(-43.1729 -22.9068)', 4326))";
      "INSERT INTO points (geom) VALUES (GeomFromText('POINT(-54.5854 -25.5165)', 4326))";
      "INSERT INTO points (geom) VALUES (GeomFromText('POINT(-32.423786 -3.853808)', 4326))";
      "COMMIT" ] /\
  Forall (fun q => rc q.2 = SQLITE_OK)
         (execs (events (run_example_1 "places.sqlite") w)) /\
  points (eng (final (run_example_1 "places.sqlite") w)) =
    [ "POINT(-43.1729 -22.9068)"; "POINT(-54.5854 -25.5165)";
      "POINT(-32.423786 -3.853808)" ].
Proof.
  intros w.
  split; [vm_compute; reflexivity |].
  split; [vm_compute; reflexivity |].
  split.
  - apply (proj1 example_1_inserts_three_points_in_one_transaction
             (toy brazil healthy) w "places.sqlite").
    vm_compute. reflexivity.
  - apply (proj2 example_1_inserts_three_points_in_one_transaction
             false [] "places.sqlite").
Defined.

Lemma failed_insert_leaves_transaction_uncommitted_witness :
  let w := new_database fails_second_insert in
  let foz := ("Foz do Iguacu", "POINT(-54.5854 -25.5165)") in
  In (insert_sql "points" foz, toy_error)
     (execs (events (run_example_1 "places.sqlite") w)) /\
  result (run_example_1 "places.sqlite") w = Normal 1%Z /\
  last (execs (events (run_example_1 "places.sqlite") w)) =
    Some (insert_sql "points" foz, toy_error) /\
  (forall sql, In sql (map fst (execs (events (run_example_1 "places.sqlite") w))) ->
               sql <> commit_sql /\ String.prefix "ROLLBACK" sql = false) /\
  (exists db cache,
     lifecycle (events (run_example_1 "places.sqlite") w) =
       [Open db; Alloc cache; Attach db cache; Close db; Cleanup cache; Shutdown]).
Proof.
  intros w foz.
  split; [vm_compute; tauto |].
  apply (failed_insert_leaves_transaction_uncommitted w "places.sqlite" foz toy_error).
  - vm_compute. tauto.
  - vm_compute. lia.
Defined.

Lemma unknown_option_prints_usage_and_exits_0_witness :
  let w := new_database healthy in
  let cl := CmdLine [OptRet "i" "3"; OptRet "?" ""; OptRet "n" "x.db"] ["stray"] in
  In "?"%char (map opt_c (opts cl)) /\
  result (main cl) w = Exited 0 /\
  exit_code (result (main cl) w) = Some 0%Z /\
  events (main cl) w = Stdout ("parsing arguments..." +:+ endl) :: map Stdout usage /\
  result (main cl) w = result (main (CmdLine [OptRet "h" ""] [])) w /\
  events (main cl) w = events (main (CmdLine [OptRet "h" ""] [])) w.
Proof.
  intros w cl.
  split; [vm_compute; tauto |].
  apply (unknown_option_prints_usage_and_exits_0 w cl).
  vm_compute. tauto.
Defined.

Lemma step_failure_is_reported_as_not_found_witness :
  let w := new_database fails_steps in
  In (import_sql "../shp/BR_UF_2022" "location", toy_ok)
     (execs (events (run_example_2 ":memory:") w)) /\
  map rc (steps (events (run_example_2 ":memory:") w)) = [1; 1; 1; 1; 1; 1]%Z /\
  ((result (run_example_2 ":memory:") w = Normal 0%Z /\
    Forall (fun q => rc q.2 = SQLITE_OK)
           (prepares (events (run_example_2 ":memory:") w)) /\
    length (steps (events (run_example_2 ":memory:") w)) = 6%nat)
   \/
   (result (run_example_2 ":memory:") w = Normal 1%Z /\
    Exists (fun q => rc q.2 <> SQLITE_OK)
           (prepares (events (run_example_2 ":memory:") w)))) /\
  (forall (k : nat) place s,
     places_2 !! k = Some place ->
     steps (events (run_example_2 ":memory:") w) !! S k = Some s ->
     rc s <> SQLITE_ROW ->
     In (place.1 +:+ " ---> " +:+ "Not found" +:+ endl)
        (stdout (events (run_example_2 ":memory:") w))).
Proof.
  intros w.
  split; [vm_compute; tauto |].
  split; [vm_compute; reflexivity |].
  apply (step_failure_is_reported_as_not_found w ":memory:" toy_ok).
  - vm_compute. tauto.
  - reflexivity.
Defined.

(** With every step failing, Example 2 still exits with status 0. *)
Example failing_steps_exit_0 :
  result (run_example_2 ":memory:") (new_database fails_steps) = Normal 0%Z /\
  stdout (events (run_example_2 ":memory:") (new_database fails_steps)) =
    [ "Opening database: :memory:" +:+ endl;
      "Initializing Spatialite..." +:+ endl;
      "Importing shapefile: ../shp/BR_UF_2022" +:+ endl;
      "SELECT ImportSHP('../shp/BR_UF_2022', 'location', 'UTF-8')" +:+ endl;
      "Checking what are the correspoding State names for the following points:"
        +:+ endl;
      "Rio de Janeiro ---> Not found" +:+ endl;
      "Foz do Iguacu ---> Not found" +:+ endl;
      "Fernando de Noronha ---> Not found" +:+ endl;
      "Null Island ---> Not found" +:+ endl;
      "New York ---> Not found" +:+ endl;
      "Example 2 Done." +:+ endl ].
Proof. split; vm_compute; reflexivity. Qed.

(** [--example-id 257] on a new in-memory database: Example 1 runs to its
    end and the exit status is 0. *)
Example example_id_257_exits_0 :
  exit_code (result (main (CmdLine [OptRet "i" "257"] [])) (new_database healthy))
    = Some 0%Z /\
  execs (events (main (CmdLine [OptRet "i" "257"] [])) (new_database healthy)) <> [].
Proof. split; [vm_compute; reflexivity | vm_compute; discriminate]. Qed.

(** Example 2 twice on the same database file: the first run initializes
    the metadata, the second finds it and does not initialize again; both
    return 0. *)
Example second_run_does_not_initialize_again :
  let first := run_example_2 "brazil.sqlite" (new_database healthy) in
  let second := run_example_2 "brazil.sqlite" first.1.2 in
  first.1.1 = Normal 0%Z /\
  count_occ string_dec (map fst (execs first.2)) init_sql = 1%nat /\
  second.1.1 = Normal 0%Z /\
  count_occ string_dec (map fst (execs second.2)) init_sql = 0%nat.
Proof. repeat split; vm_compute; reflexivity. Qed.

(** ** The further properties at work on the concrete engine *)

Lemma failed_open_runs_no_sql_witness :
  let w := new_database fails_open in
  let o := Reply 14 1001 "unable to open database file" in
  head (opens (events (run_example Example2 "/nowhere/x.db") w)) = Some o /\
  rc o <> SQLITE_OK /\
  result (run_example Example2 "/nowhere/x.db") w = Normal 1%Z /\
  lifecycle (events (run_example Example2 "/nowhere/x.db") w) =
    [Open (ptr o); Close (ptr o)] /\
  execs (events (run_example Example2 "/nowhere/x.db") w) = [] /\
  prepares (events (run_example Example2 "/nowhere/x.db") w) = [] /\
  (exists m,
     stderr (events (run_example Example2 "/nowhere/x.db") w) =
       ["Error opening database: " +:+ txt m +:+ endl]).
Proof.
  intros w o.
  split; [vm_compute; reflexivity |].
  split; [vm_compute; lia |].
  apply (failed_open_runs_no_sql Example2 w "/nowhere/x.db" o).
  - vm_compute. reflexivity.
  - vm_compute. lia.
Defined.

Lemma failures_are_reported_witness :
  let w := new_database fails_second_insert in
  result (run_example Example1 "places.sqlite") w = Normal 1%Z /\
  stderr (events (run_example Example1 "places.sqlite") w) <> [].
Proof.
  intros w.
  split; [vm_compute; reflexivity |].
  apply (failures_are_reported Example1 w "places.sqlite").
  vm_compute. intros E. discriminate E.
Defined.

Lemma close_failure_is_tolerated_witness :
  let w := new_database fails_close in
  result (run_example Example1 "places.sqlite") w = Normal 0%Z /\
  exists c,
    closes (events (run_example Example1 "places.sqlite") w) = [c] /\
    ((rc c = SQLITE_OK /\
      stderr (events (run_example Example1 "places.sqlite") w) = [])
     \/
     (rc c <> SQLITE_OK /\
      exists m,
        stderr (events (run_example Example1 "places.sqlite") w) =
          ["Error closing database: " +:+ txt m +:+ endl])) /\
    exists db cache,
      lifecycle (events (run_example Example1 "places.sqlite") w) =
        [Open db; Alloc cache; Attach db cache; Close db; Cleanup cache; Shutdown].
Proof.
  intros w.
  split; [vm_compute; reflexivity |].
  apply (close_failure_is_tolerated Example1 w "places.sqlite").
  vm_compute. reflexivity.
Defined.

Lemma bootstrap_initializes_when_no_row_witness :
  let w := initialized_database fails_steps in
  head (steps (events (run_example Example1 "places.sqlite") w)) = Some toy_error /\
  rc toy_error <> SQLITE_ROW /\
  In ("Initializing Spatialite..." +:+ endl)
     (stdout (events (run_example Example1 "places.sqlite") w)) /\
  exists e,
    head (execs (events (run_example Example1 "places.sqlite") w)) =
      Some (init_sql, e).
Proof.
  intros w.
  split; [vm_compute; reflexivity |].
  split; [vm_compute; lia |].
  apply (bootstrap_initializes_when_no_row Example1 w "places.sqlite" toy_error).
  - vm_compute. reflexivity.
  - vm_compute. lia.
Defined.

Lemma help_prints_usage_and_exits_0_witness :
  let w := new_database healthy in
  let cl := CmdLine [OptRet "i" "7"; OptRet "h" ""; OptRet "n" "x.db"] ["stray"] in
  In "h"%char (map opt_c (opts cl)) /\
  result (main cl) w = Exited 0 /\
  events (main cl) w = Stdout ("parsing arguments..." +:+ endl) :: map Stdout usage /\
  final (main cl) w = w.
Proof.
  intros w cl.
  split; [vm_compute; tauto |].
  apply (help_prints_usage_and_exits_0 w cl).
  vm_compute. tauto.
Defined.

Lemma parse_args_keeps_the_last_values_witness :
  let w := new_database healthy in
  let cl :=
    CmdLine [ OptRet "i" "1"; OptRet "n" "a.db";
              OptRet "i" "9223372036854775809"; OptRet "n" "b.db" ]
            [] in
  result (parse_args cl (Locals true "" 0)) w = Normal (Locals false "b.db" 255) /\
  result (parse_args cl (Locals true "" 0)) w =
    Normal
      (Locals
         (negb (existsb (fun r => Ascii.eqb (opt_c r) "n") (opts cl)))
         (default "" (last_optarg "n" (opts cl)))
         (from_option (fun s => to_uint8 (atoi s)) 0%Z (last_optarg "i" (opts cl)))) /\
  events (parse_args cl (Locals true "" 0)) w =
    [Stdout ("parsing arguments..." +:+ endl)] /\
  final (parse_args cl (Locals true "" 0)) w = w.
Proof.
  intros w cl.
  split; [vm_compute; reflexivity |].
  apply (parse_args_keeps_the_last_values w cl).
  - repeat constructor.
  - reflexivity.
Defined.

(** An identifier beyond the range of [long] is read as [LONG_MAX], whose
    low byte is 255: no example has that number and nothing is opened. *)
Example example_id_beyond_long_is_refused :
  atoi "9223372036854775809" = (-1)%Z /\
  to_uint8 (atoi "9223372036854775809") = 255%Z /\
  result (main (CmdLine [OptRet "i" "9223372036854775809"] []))
         (new_database healthy) = Normal 1%Z /\
  calls (events (main (CmdLine [OptRet "i" "9223372036854775809"] []))
                (new_database healthy)) = [].
Proof. repeat split; vm_compute; reflexivity. Qed.

Lemma stray_operand_is_rejected_witness :
  let w := new_database healthy in
  let cl := CmdLine [OptRet "i" "1"] ["stray"; "more"] in
  result (main cl) w = Exited 1 /\
  events (main cl) w =
    [ Stdout ("parsing arguments..." +:+ endl);
      Stderr ("Unexpected argument: " +:+ "stray" +:+ endl) ] /\
  final (main cl) w = w.
Proof.
  intros w cl.
  apply (stray_operand_is_rejected w cl "stray" ["more"]).
  - repeat constructor.
  - reflexivity.
Defined.

Lemma unknown_example_is_refused_witness :
  let w := new_database healthy in
  let cl := CmdLine [OptRet "n" "x.db"; OptRet "i" "3"] [] in
  let v := Locals false "x.db" 3 in
  result (parse_args cl (Locals true "" 0)) w = Normal v /\
  result (main cl) w = Normal 1%Z /\
  final (main cl) w = w /\
  calls (events (main cl) w) = [] /\
  setenvs (events (main cl) w) = [] /\
  stderr (events (main cl) w) =
    ["Unknown example ID: " +:+ show_uint8 (example_id v) +:+ endl].
Proof.
  intros w cl v.
  split; [vm_compute; reflexivity |].
  apply (unknown_example_is_refused w cl v).
  - vm_compute. reflexivity.
  - vm_compute. lia.
  - vm_compute. lia.
Defined.

Lemma selected_example_runs_witness :
  let w := new_database healthy in
  let cl := CmdLine [OptRet "i" "2"; OptRet "n" "brazil.sqlite"] [] in
  let v := Locals false "brazil.sqlite" 2 in
  result (parse_args cl (Locals true "" 0)) w = Normal v /\
  example_id v = number Example2 /\
  result (main cl) w = result (run_example Example2 (target v)) w /\
  final (main cl) w = final (run_example Example2 (target v)) w /\
  exists pre,
    events (main cl) w = pre ++ events (run_example Example2 (target v)) w /\
    calls pre = [] /\ stderr pre = [] /\ setenvs pre = [].
Proof.
  intros w cl v.
  split; [vm_compute; reflexivity |].
  split; [reflexivity |].
  apply (selected_example_runs w cl v Example2).
  - vm_compute. reflexivity.
  - reflexivity.
Defined.

Lemma failed_statement_tears_down_witness :
  let w := new_database fails_second_insert in
  let foz := ("Foz do Iguacu", "POINT(-54.5854 -25.5165)") in
  In (insert_sql "points" foz, toy_error)
     (execs (events (run_example Example1 "places.sqlite") w)) /\
  rc toy_error <> SQLITE_OK /\
  result (run_example Example1 "places.sqlite") w = Normal 1%Z /\
  In ("Error: " +:+ txt toy_error +:+ endl)
     (stderr (events (run_example Example1 "places.sqlite") w)) /\
  (exists db cache,
     lifecycle (events (run_example Example1 "places.sqlite") w) =
       [Open db; Alloc cache; Attach db cache; Close db; Cleanup cache; Shutdown]).
Proof.
  intros w foz.
  split; [vm_compute; tauto |].
  split; [vm_compute; lia |].
  apply (failed_statement_tears_down Example1 w "places.sqlite"
           (insert_sql "points" foz) toy_error).
  - vm_compute. tauto.
  - vm_compute. lia.
Defined.

Lemma failed_query_prepare_tears_down_witness :
  let w := new_database fails_fourth_query in
  let sql := within_sql "location" ("Null Island", "POINT(0 0)") in
  In (sql, toy_error) (prepares (events (run_example_2 ":memory:") w)) /\
  sql <> check_sql /\
  rc toy_error <> SQLITE_OK /\
  result (run_example_2 ":memory:") w = Normal 1%Z /\
  (exists m,
     In ("Error preparing statement: " +:+ txt m +:+ endl)
        (stderr (events (run_example_2 ":memory:") w))) /\
  (exists db cache,
     lifecycle (events (run_example_2 ":memory:") w) =
       [Open db; Alloc cache; Attach db cache; Close db; Cleanup cache; Shutdown]).
Proof.
  intros w sql.
  split; [vm_compute; tauto |].
  split; [intros E; vm_compute in E; discriminate E |].
  split; [vm_compute; lia |].
  apply (failed_query_prepare_tears_down w ":memory:" sql toy_error).
  - vm_compute. tauto.
  - intros E. vm_compute in E. discriminate E.
  - vm_compute. lia.
Defined.

(** On a layer where the state of Foz do Iguacu has no name, Example 2
    returns 0 and its output stops in the middle of the second line. *)
Lemma example_2_reports_every_point_witness :
  let w := unnamed_database in
  result (run_example_2 ":memory:") w = Normal 0%Z /\
  written (events (run_example_2 ":memory:") w) =
    [ "Opening database: :memory:" +:+ endl;
      "Initializing Spatialite..." +:+ endl;
      "Importing shapefile: ../shp/BR_UF_2022" +:+ endl;
      "SELECT ImportSHP('../shp/BR_UF_2022', 'location', 'UTF-8')" +:+ endl;
      "Checking what are the correspoding State names for the following points:"
        +:+ endl;
      "Rio de Janeiro ---> Rio de Janeiro" +:+ endl;
      "Foz do Iguacu ---> " ] /\
  length (answers (List.tl (steps (events (run_example_2 ":memory:") w)))
                  (columns (events (run_example_2 ":memory:") w))) = 5%nat /\
  exists init,
    (init = [] \/ init = ["Initializing Spatialite..." +:+ endl]) /\
    written (events (run_example_2 ":memory:") w) =
      ["Opening database: " +:+ ":memory:" +:+ endl] ++ init ++
      [ "Importing shapefile: ../shp/BR_UF_2022" +:+ endl;
        "SELECT ImportSHP('../shp/BR_UF_2022', 'location', 'UTF-8')" +:+ endl;
        "Checking what are the correspoding State names for the following points:"
          +:+ endl ] ++
      reported places_2
        (answers (List.tl (steps (events (run_example_2 ":memory:") w)))
                 (columns (events (run_example_2 ":memory:") w)))
        ["Example 2 Done." +:+ endl].
Proof.
  intros w.
  split; [vm_compute; reflexivity |].
  split; [vm_compute; reflexivity |].
  apply (example_2_reports_every_point w ":memory:").
  vm_compute. reflexivity.
Defined.

